(** * Xatu cannon: orchestrator (pkg/cannon/cannon.go) and wallclock time
    windows (pkg/wallclock/time_window.go)

    A shallow embedding of the Go sources.  The orchestrator [Cannon] is a
    record, its methods are computations in a small state monad whose
    outcome also records a panic (nil dereference) or a [log.Fatal] exit.
    Objects the Go code shares by pointer (the [ClientMeta] built at
    readiness, the event derivers) live in stores indexed by position, and
    the records that refer to them hold the index.

    Collaborators whose code is outside the embedded files (sinks, the NTP
    client, the beacon node, the derivers) are represented by what the
    orchestrator passes to them and by the answers they give back; those
    answers are inputs of the model and every theorem quantifies over them. *)

From Stdlib Require Import ZArith DecimalString.
From stdpp Require Import base option list strings gmap.

Local Open Scope Z_scope.

(** ** Go primitives *)

Module Go.

(** An [error] value, identified by its message; [nil] is [None] at type
    [option error]. *)
Definition error : Type := string.

(** [uint64(x)] for an [int64] [x]: the conversion keeps the bit
    pattern, i.e. reduces modulo 2^64. *)
Definition uint64 (x : Z) : Z := x mod 2 ^ 64.

Definition in_int64 (x : Z) : Prop := - 2 ^ 63 <= x < 2 ^ 63.

(** [fmt.Sprintf("%d", n)] for an unsigned [n]. *)
Definition Sprintf_d (n : Z) : string :=
  NilZero.string_of_uint (N.to_uint (Z.to_N n)).

End Go.

(** Package [time]: an instant is a point on the time line counted in
    nanoseconds, a [Duration] is an [int64] count of nanoseconds. *)
Module time.

Definition Time : Type := Z.
Definition Duration : Type := Z.

Definition Before (t u : Time) : bool := t <? u.
Definition After (t u : Time) : bool := u <? t.

(** [func (d Duration) Milliseconds() int64 { return int64(d) / 1e6 }];
    Go's integer division truncates toward zero. *)
Definition Milliseconds (d : Duration) : Z := Z.quot d 1000000.

Definition minDuration : Duration := - 2 ^ 63.
Definition maxDuration : Duration := 2 ^ 63 - 1.

(** [t.Sub(u)]: the duration [t - u], or the smallest (largest) duration
    when the difference is below (above) what a [Duration] holds. *)
Definition Sub (t u : Time) : Duration :=
  if t - u <? minDuration then minDuration
  else if maxDuration <? t - u then maxDuration
  else t - u.

(** [time.Now()] reads the system clock; successive calls get successive
    readings. *)
Record Clock := { readings : nat -> Time; ticks : nat }.

Definition Now (k : Clock) : Time * Clock :=
  (readings k (ticks k), {| readings := readings k; ticks := S (ticks k) |}).

(** A clock that shows the same instant at every reading. *)
Definition frozen (now : Time) : Clock :=
  {| readings := fun _ => now; ticks := 0 |}.

Definition monotone (k : Clock) : Prop :=
  forall i j : nat, (i <= j)%nat -> readings k i <= readings k j.

End time.

(** ** pkg/wallclock/time_window.go *)

Module wallclock.

Record TimeWindow := { start : time.Time; end_ : time.Time }.

Definition NewTimeWindow (start end_ : time.Time) : TimeWindow :=
  {| start := start; end_ := end_ |}.

Definition Start (t : TimeWindow) : time.Time := start t.

Definition End_ (t : TimeWindow) : time.Time := end_ t.

(** [return t.start.Before(time.Now()) && t.end.After(time.Now())]: the
    clock is read once per operand, and [&&] does not evaluate its right
    operand when the left one is false. *)
Definition Active (t : TimeWindow) (k : time.Clock) : bool * time.Clock :=
  let '(now1, k1) := time.Now k in
  if time.Before (start t) now1 then
    let '(now2, k2) := time.Now k1 in
    (time.After (end_ t) now2, k2)
  else (false, k1).

(** [return t.end.Sub(time.Now())]. *)
Definition EndsIn (t : TimeWindow) (k : time.Clock) : time.Duration * time.Clock :=
  let '(now, k1) := time.Now k in
  (time.Sub (end_ t) now, k1).

(** [return t.start.Sub(time.Now())]. *)
Definition StartsIn (t : TimeWindow) (k : time.Clock) : time.Duration * time.Clock :=
  let '(now, k1) := time.Now k in
  (time.Sub (start t) now, k1).

End wallclock.

(** ** Collaborating packages, as the orchestrator sees them *)

(** The function literals the orchestrator hands to its collaborators,
    named by what their body does: the closure given to [beacon.OnReady],
    the two closures registered on every deriver, and the cron job. *)
Inductive Closure :=
| OnReadyFn
| OnEventsDerivedFn
| OnLocationUpdatedFn
| CronFn.

(** The function literals the orchestrator runs as goroutines: the bodies
    of the [go func()] statements of [ServeMetrics] and [ServePProf]. *)
Inductive Goroutine :=
| MetricsServerFn
| PProfServerFn.

Module syscall.
(** The two signals [signal.Notify] subscribes the channel to. *)
Inductive Signal := SIGTERM | SIGINT.
End syscall.

Module xatu.

(** The cannon types named in cannon.go. *)
Inductive CannonType :=
| BEACON_API_ETH_V2_BEACON_BLOCK_ATTESTER_SLASHING
| BEACON_API_ETH_V2_BEACON_BLOCK_PROPOSER_SLASHING
| BEACON_API_ETH_V2_BEACON_BLOCK_VOLUNTARY_EXIT
| BEACON_API_ETH_V2_BEACON_BLOCK_DEPOSIT
| BEACON_API_ETH_V2_BEACON_BLOCK_BLS_TO_EXECUTION_CHANGE
| BEACON_API_ETH_V2_BEACON_BLOCK_EXECUTION_TRANSACTION.

#[global] Instance CannonType_eq_dec : EqDecision CannonType.
Proof. solve_decision. Defined.

Record ClientMeta_Ethereum_Network := { Network_Name : string; Network_Id : Z }.

Record ClientMeta_Ethereum_Consensus :=
  { Consensus_Implementation : string; Consensus_Version : string }.

Record ClientMeta_Ethereum := {
  Network : option ClientMeta_Ethereum_Network;
  Execution : unit;
  Consensus : ClientMeta_Ethereum_Consensus
}.

(** The fields [createNewClientMeta] fills in. [ClockDrift] is a uint64. *)
Record ClientMeta := {
  Name : string;
  Version : string;
  Id : string;
  Implementation : string;
  Os : string;
  ClockDrift : Z;
  Ethereum : ClientMeta_Ethereum;
  Labels : gmap string string
}.

(** Modelled from the spec: the generated protobuf type is outside the
    embedded files; section 6 gives the envelope as event type, client
    meta with the event's date and time, type-specific data and the
    position in the block. *)
Record DecoratedEvent := {
  event_type : CannonType;
  meta_client : ClientMeta;
  event_date_time : time.Time;
  data : string;
  position_in_block : nat
}.

End xatu.

Module logrus.

Inductive Level := InfoLevel | ErrorLevel | FatalLevel.

(** What [WithField] and [WithError] attach, and what [Printf] formats. *)
Inductive Value :=
| VString (s : string)
| VError (err : Go.error)
| VInt (n : Z)
| VDuration (d : time.Duration)
| VCannonType (t : xatu.CannonType)
| VDeriverName (t : xatu.CannonType)
| VSignal (sig : syscall.Signal)
| VVersion.

Record Entry := { level : Level; message : string; fields : list (string * Value) }.

End logrus.

(** [output.Sink]: an interface value.  The model keeps the calls a sink has
    received, and lets its answer to a call depend on them. *)
Module output.

Inductive Call :=
| CallStart
| CallHandleNewDecoratedEvents (events : list xatu.DecoratedEvent)
| CallStop.

Record Sink := {
  Type_ : string;
  received : list Call;
  answers : list Call -> Call -> option Go.error
}.

Definition invoke (call : Call) (sink : Sink) : Sink * option Go.error :=
  ({| Type_ := Type_ sink; received := received sink ++ [call]; answers := answers sink |},
   answers sink (received sink) call).

Definition Start : Sink -> Sink * option Go.error := invoke CallStart.
Definition Stop : Sink -> Sink * option Go.error := invoke CallStop.
Definition HandleNewDecoratedEvents (events : list xatu.DecoratedEvent)
  : Sink -> Sink * option Go.error := invoke (CallHandleNewDecoratedEvents events).

End output.

(** [github.com/beevik/ntp]: the answer to a query and what its own
    [Validate] says about it. *)
Module ntp.
Record Response := { ClockOffset : time.Duration; Validate : option Go.error }.
End ntp.

Module gocron.
Record Job := { interval : string; task : Closure }.
Record Scheduler := { jobs : list Job; running : bool }.
Definition NewScheduler : Scheduler := {| jobs := []; running := false |}.
End gocron.

Module coordinator.
(** Modelled from the spec: section 6 lists the coordinator options
    address and tls. *)
Record Config := { Address : string; TLS : bool }.
Record Client := { config : Config }.
End coordinator.

Module networks.
Record Network := { Name : string; ID : Z }.
End networks.

Module ethereum.

Record Config := { BeaconNodeAddress : string; OverrideNetworkName : string }.

(** Modelled from the spec: the wallclock computes epochs and slots from
    the genesis instant and the slot duration of the network. *)
Record EthereumBeaconChain :=
  { genesis : time.Time; slotDuration : time.Duration; slotsPerEpoch : Z }.

(** [Network] is a pointer in Go and may be nil. *)
Record MetadataService := {
  Network : option networks.Network;
  Client : string;
  NodeVersion : string;
  Wallclock : EthereumBeaconChain
}.

(** The beacon node handle: its metadata, the callbacks registered with
    [OnReady], whether readiness has been announced, and what [Start]
    answers. *)
Record BeaconNode := {
  Metadata : MetadataService;
  onReadyCallbacks : list Closure;
  ready : bool;
  startAnswer : option Go.error;
  started : bool
}.

End ethereum.

Module iterator.

Record CheckpointMetrics := { namespace : string }.

Definition NewCheckpointMetrics (namespace : string) : CheckpointMetrics :=
  {| namespace := namespace |}.

(** What [NewCheckpointIterator] is given (the logger and the beacon
    handle apart, which every iterator shares with the orchestrator). *)
Record CheckpointIterator := {
  networkName : string;
  networkID : string;
  cannonType : xatu.CannonType;
  coordinatorClient : coordinator.Client;
  wallclock : ethereum.EthereumBeaconChain;
  metrics : CheckpointMetrics;
  checkpointName : string
}.

Definition NewCheckpointIterator (networkName networkID : string)
    (cannonType : xatu.CannonType) (coordinatorClient : coordinator.Client)
    (wallclock : ethereum.EthereumBeaconChain) (metrics : CheckpointMetrics)
    (checkpointName : string) : CheckpointIterator :=
  {| networkName := networkName; networkID := networkID; cannonType := cannonType;
     coordinatorClient := coordinatorClient; wallclock := wallclock;
     metrics := metrics; checkpointName := checkpointName |}.

End iterator.

Module deriver.

(** Modelled from the spec: section 6 gives every deriver an enabled
    flag. *)
Record Config := { Enabled : bool }.

(** An event deriver: what its constructor was given, the callbacks
    registered on it, and whether [Start] has succeeded.  [clientMeta] is
    the pointer it was constructed with, an index into the store of
    client metas. *)
Record EventDeriver := {
  CannonType : xatu.CannonType;
  config : Config;
  iter : iterator.CheckpointIterator;
  clientMeta : nat;
  onEventsDerived : list Closure;
  onLocationUpdated : list Closure;
  started : bool
}.

Definition OnEventsDerived (fn : Closure) (d : EventDeriver) : EventDeriver :=
  {| CannonType := CannonType d; config := config d; iter := iter d;
     clientMeta := clientMeta d;
     onEventsDerived := onEventsDerived d ++ [fn];
     onLocationUpdated := onLocationUpdated d; started := started d |}.

Definition OnLocationUpdated (fn : Closure) (d : EventDeriver) : EventDeriver :=
  {| CannonType := CannonType d; config := config d; iter := iter d;
     clientMeta := clientMeta d;
     onEventsDerived := onEventsDerived d;
     onLocationUpdated := onLocationUpdated d ++ [fn]; started := started d |}.

(** [Start] with the answer the deriver gives; it runs only when the
    answer is nil. *)
Definition Start (answer : option Go.error) (d : EventDeriver) : EventDeriver :=
  {| CannonType := CannonType d; config := config d; iter := iter d;
     clientMeta := clientMeta d;
     onEventsDerived := onEventsDerived d;
     onLocationUpdated := onLocationUpdated d;
     started := match answer with None => true | Some _ => started d end |}.

End deriver.

(** Modelled from the spec: package [v2] is outside the embedded files.
    Section 4.4 has one deriver per event kind, each reporting its own
    event type; a constructor keeps what cannon.go gives it. *)
Module v2.

Definition new (t : xatu.CannonType) (config : deriver.Config)
    (iter : iterator.CheckpointIterator) (clientMeta : nat)
  : deriver.EventDeriver :=
  {| deriver.CannonType := t; deriver.config := config; deriver.iter := iter;
     deriver.clientMeta := clientMeta; deriver.onEventsDerived := [];
     deriver.onLocationUpdated := []; deriver.started := false |}.

Definition NewAttesterSlashingDeriver :=
  new xatu.BEACON_API_ETH_V2_BEACON_BLOCK_ATTESTER_SLASHING.
Definition NewProposerSlashingDeriver :=
  new xatu.BEACON_API_ETH_V2_BEACON_BLOCK_PROPOSER_SLASHING.
Definition NewVoluntaryExitDeriver :=
  new xatu.BEACON_API_ETH_V2_BEACON_BLOCK_VOLUNTARY_EXIT.
Definition NewDepositDeriver :=
  new xatu.BEACON_API_ETH_V2_BEACON_BLOCK_DEPOSIT.
Definition NewBLSToExecutionChangeDeriver :=
  new xatu.BEACON_API_ETH_V2_BEACON_BLOCK_BLS_TO_EXECUTION_CHANGE.
Definition NewExecutionTransactionDeriver :=
  new xatu.BEACON_API_ETH_V2_BEACON_BLOCK_EXECUTION_TRANSACTION.

End v2.

(** ** src/unnamed/part_000: package server, [Config.Validate]

    The three parts of the server configuration validate themselves
    elsewhere; their verdicts are taken as given. *)
Module server.

Record Config (Services Store GeoIP : Type) := {
  Addr : string;
  MetricsAddr : string;
  LoggingLevel : string;
  Services_ : Services;
  Store_ : Store;
  GeoIP_ : GeoIP
}.
Arguments Addr {_ _ _} _.
Arguments MetricsAddr {_ _ _} _.
Arguments LoggingLevel {_ _ _} _.
Arguments Services_ {_ _ _} _.
Arguments Store_ {_ _ _} _.
Arguments GeoIP_ {_ _ _} _.

Definition Validate {Services Store GeoIP : Type}
    (service_Validate : Services -> option Go.error)
    (store_Validate : Store -> option Go.error)
    (geoip_Validate : GeoIP -> option Go.error)
    (c : Config Services Store GeoIP) : option Go.error :=
  match service_Validate (Services_ c) with
  | Some err => Some err
  | None =>
    match store_Validate (Store_ c) with
    | Some err => Some err
    | None =>
      match geoip_Validate (GeoIP_ c) with
      | Some err => Some err
      | None => None
      end
    end
  end.

End server.

(** ** pkg/cannon: the orchestrator's data *)

Record DeriversConfig := {
  AttesterSlashingConfig : deriver.Config;
  ProposerSlashingConfig : deriver.Config;
  VoluntaryExitConfig : deriver.Config;
  DepositConfig : deriver.Config;
  BLSToExecutionConfig : deriver.Config;
  ExecutionTransactionConfig : deriver.Config
}.

(** The configuration fields cannon.go reads. [PProfAddr] is a [*string]. *)
Record Config := {
  Name : string;
  Labels : gmap string string;
  NTPServer : string;
  MetricsAddr : string;
  PProfAddr : option string;
  Ethereum : ethereum.Config;
  Derivers : DeriversConfig;
  Coordinator : coordinator.Config
}.

(** The metrics object, by the calls made on it. *)
Inductive Observation :=
| AddDecoratedEvent (count : Z) (event : xatu.DecoratedEvent) (network : string)
| SetDeriverLocation (location : Z) (type_ : xatu.CannonType) (network : string).

Record Metrics := { namespace : string; observations : list Observation }.

Definition NewMetrics (namespace : string) : Metrics :=
  {| namespace := namespace; observations := [] |}.

(** [type Cannon struct]. [log] holds the entries written through the
    logger; [eventDerivers] holds pointers into the store of derivers, and
    the nil slice is the empty list. *)
Record Cannon := {
  Config_ : Config;
  sinks : list output.Sink;
  beacon : ethereum.BeaconNode;
  clockDrift : time.Duration;
  log : list logrus.Entry;
  id : string;
  metrics : Metrics;
  scheduler : gocron.Scheduler;
  eventDerivers : list nat;
  coordinatorClient : coordinator.Client
}.

Definition set_sinks (v : list output.Sink) (c : Cannon) : Cannon :=
  {| Config_ := Config_ c; sinks := v; beacon := beacon c; clockDrift := clockDrift c;
     log := log c; id := id c; metrics := metrics c; scheduler := scheduler c;
     eventDerivers := eventDerivers c; coordinatorClient := coordinatorClient c |}.

Definition set_beacon (v : ethereum.BeaconNode) (c : Cannon) : Cannon :=
  {| Config_ := Config_ c; sinks := sinks c; beacon := v; clockDrift := clockDrift c;
     log := log c; id := id c; metrics := metrics c; scheduler := scheduler c;
     eventDerivers := eventDerivers c; coordinatorClient := coordinatorClient c |}.

Definition set_clockDrift (v : time.Duration) (c : Cannon) : Cannon :=
  {| Config_ := Config_ c; sinks := sinks c; beacon := beacon c; clockDrift := v;
     log := log c; id := id c; metrics := metrics c; scheduler := scheduler c;
     eventDerivers := eventDerivers c; coordinatorClient := coordinatorClient c |}.

Definition set_log (v : list logrus.Entry) (c : Cannon) : Cannon :=
  {| Config_ := Config_ c; sinks := sinks c; beacon := beacon c; clockDrift := clockDrift c;
     log := v; id := id c; metrics := metrics c; scheduler := scheduler c;
     eventDerivers := eventDerivers c; coordinatorClient := coordinatorClient c |}.

Definition set_metrics (v : Metrics) (c : Cannon) : Cannon :=
  {| Config_ := Config_ c; sinks := sinks c; beacon := beacon c; clockDrift := clockDrift c;
     log := log c; id := id c; metrics := v; scheduler := scheduler c;
     eventDerivers := eventDerivers c; coordinatorClient := coordinatorClient c |}.

Definition set_scheduler (v : gocron.Scheduler) (c : Cannon) : Cannon :=
  {| Config_ := Config_ c; sinks := sinks c; beacon := beacon c; clockDrift := clockDrift c;
     log := log c; id := id c; metrics := metrics c; scheduler := v;
     eventDerivers := eventDerivers c; coordinatorClient := coordinatorClient c |}.

Definition set_eventDerivers (v : list nat) (c : Cannon) : Cannon :=
  {| Config_ := Config_ c; sinks := sinks c; beacon := beacon c; clockDrift := clockDrift c;
     log := log c; id := id c; metrics := metrics c; scheduler := scheduler c;
     eventDerivers := v; coordinatorClient := coordinatorClient c |}.

(** The process state: the orchestrator, the two stores of objects it
    shares by pointer, and the goroutines it has spawned that have not run
    yet. *)
Record State := {
  self : Cannon;
  clientMetas : list xatu.ClientMeta;
  derivers : list deriver.EventDeriver;
  goroutines : list Goroutine
}.

Definition boot (c : Cannon) : State :=
  {| self := c; clientMetas := []; derivers := []; goroutines := [] |}.

(** ** The monad of orchestrator methods *)

Inductive Outcome (A : Type) : Type :=
| Returned (a : A)
| Panicked
| Exited.
Arguments Returned {A} a.
Arguments Panicked {A}.
Arguments Exited {A}.

Definition M (A : Type) : Type := State -> Outcome A * State.

#[global] Instance M_ret : MRet M := fun A a s => (Returned a, s).

#[global] Instance M_bind : MBind M := fun A B k m s =>
  match m s with
  | (Returned a, s') => k a s'
  | (Panicked, s') => (Panicked, s')
  | (Exited, s') => (Exited, s')
  end.

Definition this : M Cannon := fun s => (Returned (self s), s).

Definition update (f : Cannon -> Cannon) : M unit := fun s =>
  (Returned tt,
   {| self := f (self s); clientMetas := clientMetas s; derivers := derivers s;
   goroutines := goroutines s |}).

Definition panic {A : Type} : M A := fun s => (Panicked, s).

Definition exit {A : Type} : M A := fun s => (Exited, s).

Definition logged (level : logrus.Level) (message : string)
    (fields : list (string * logrus.Value)) : M unit :=
  update (fun c =>
    set_log (log c ++ [ {| logrus.level := level; logrus.message := message;
                           logrus.fields := fields |} ]) c).

(** [go func() {...}()]: one more goroutine, not run yet. *)
Definition spawn (g : Goroutine) : M unit := fun s =>
  (Returned tt,
   {| self := self s; clientMetas := clientMetas s; derivers := derivers s;
      goroutines := goroutines s ++ [g] |}).

(** [&xatu.ClientMeta{...}]: a new cell of the store, and its address. *)
Definition allocClientMeta (m : xatu.ClientMeta) : M nat := fun s =>
  (Returned (length (clientMetas s)),
   {| self := self s; clientMetas := clientMetas s ++ [m]; derivers := derivers s;
   goroutines := goroutines s |}).

(** The derivers a slice literal constructs, and their addresses. *)
Definition allocDerivers (ds : list deriver.EventDeriver) : M (list nat) := fun s =>
  (Returned (seq (length (derivers s)) (length ds)),
   {| self := self s; clientMetas := clientMetas s; derivers := derivers s ++ ds;
   goroutines := goroutines s |}).

Definition deref (p : nat) : M deriver.EventDeriver := fun s =>
  match derivers s !! p with
  | Some d => (Returned d, s)
  | None => (Panicked, s)
  end.

Definition store (p : nat) (d : deriver.EventDeriver) : M unit := fun s =>
  (Returned tt,
   {| self := self s; clientMetas := clientMetas s; derivers := <[p := d]> (derivers s);
   goroutines := goroutines s |}).

(** A method call on the deriver at [p] that changes the deriver. *)
Definition onDeriver (p : nat) (f : deriver.EventDeriver -> deriver.EventDeriver)
  : M unit :=
  d ← deref p; store p (f d).

(** ** pkg/cannon/cannon.go: the methods *)

(** What cannon.go takes from the rest of the repository and from its
    libraries: the build constants, and the constructors and validators
    whose code is in other files. *)
Record Externals := {
  xatu_Short : string;
  xatu_Implementation : string;
  runtime_GOOS : string;
  Config_Validate : Config -> option Go.error;
  Config_CreateSinks : Config -> Go.error + list output.Sink;
  ethereum_NewBeaconNode : string -> ethereum.Config -> Go.error + ethereum.BeaconNode;
  coordinator_New : coordinator.Config -> Go.error + coordinator.Client;
  scheduler_Every_Do : string -> Closure -> option Go.error
}.

Section Methods.

Context (ext : Externals).

(** [func New]: the pair of results Go returns; [uuid] is the value
    [uuid.New()] draws. *)
Definition New (config : option Config) (uuid : string)
  : option Cannon * option Go.error :=
  match config with
  | None => (None, Some "config is required"%string)
  | Some config =>
    match Config_Validate ext config with
    | Some err => (None, Some err)
    | None =>
      match Config_CreateSinks ext config with
      | inl err => (None, Some err)
      | inr sinks =>
        match ethereum_NewBeaconNode ext (Name config) (Ethereum config) with
        | inl err => (None, Some err)
        | inr beacon =>
          match coordinator_New ext (Coordinator config) with
          | inl err => (None, Some err)
          | inr coordinatorClient =>
            (Some {| Config_ := config;
                     sinks := sinks;
                     beacon := beacon;
                     clockDrift := 0;
                     log := [];
                     id := uuid;
                     metrics := NewMetrics "xatu_cannon";
                     scheduler := gocron.NewScheduler;
                     eventDerivers := [];
                     coordinatorClient := coordinatorClient |},
             None)
          end
        end
      end
    end
  end.

(** [func (c *Cannon) ServeMetrics]: the method starts a goroutine and
    returns nil. *)
Definition ServeMetrics : M (option Go.error) :=
  spawn MetricsServerFn;;
  mret None.

(** The body of that goroutine: it announces the address and calls
    [server.ListenAndServe()], which blocks while the server serves.
    [listen] is what the call answers: [None] while it serves, the error
    it returns otherwise, and then [c.log.Fatal(err)] ends the process. *)
Definition metricsServer (listen : option Go.error) : M unit :=
  c ← this;
  logged logrus.InfoLevel "Serving metrics at %s"
    [("addr"%string, logrus.VString (MetricsAddr (Config_ c)))];;
  match listen with
  | Some err => logged logrus.FatalLevel err [];; exit
  | None => mret tt
  end.

(** [func (c *Cannon) ServePProf]: the server is built on the calling
    goroutine, with [*c.Config.PProfAddr] as its address, and then served
    on a goroutine of its own. *)
Definition ServePProf : M (option Go.error) :=
  c ← this;
  match PProfAddr (Config_ c) with
  | None => panic
  | Some _ =>
    spawn PProfServerFn;;
    mret None
  end.

(** The body of that goroutine, as for the metrics server. *)
Definition pprofServer (listen : option Go.error) : M unit :=
  c ← this;
  match PProfAddr (Config_ c) with
  | None => panic
  | Some addr =>
    logged logrus.InfoLevel "Serving pprof at %s" [("addr"%string, logrus.VString addr)];;
    match listen with
    | Some err => logged logrus.FatalLevel err [];; exit
    | None => mret tt
    end
  end.

(** The struct literal of [createNewClientMeta], evaluated on the
    orchestrator's current fields. *)
Definition newClientMeta (c : Cannon) : xatu.ClientMeta :=
  let network := ethereum.Network (ethereum.Metadata (beacon c)) in
  let networkMeta :=
    match network with
    | Some network =>
      Some {| xatu.Network_Name :=
                if decide (ethereum.OverrideNetworkName (Ethereum (Config_ c)) = ""%string)
                then networks.Name network
                else ethereum.OverrideNetworkName (Ethereum (Config_ c));
              xatu.Network_Id := networks.ID network |}
    | None => None
    end in
  {| xatu.Name := Name (Config_ c);
     xatu.Version := xatu_Short ext;
     xatu.Id := id c;
     xatu.Implementation := xatu_Implementation ext;
     xatu.Os := runtime_GOOS ext;
     xatu.ClockDrift := Go.uint64 (time.Milliseconds (clockDrift c));
     xatu.Ethereum :=
       {| xatu.Network := networkMeta;
          xatu.Execution := tt;
          xatu.Consensus :=
            {| xatu.Consensus_Implementation := ethereum.Client (ethereum.Metadata (beacon c));
               xatu.Consensus_Version := ethereum.NodeVersion (ethereum.Metadata (beacon c)) |} |};
     xatu.Labels := Labels (Config_ c) |}.

(** [func (c *Cannon) createNewClientMeta]: returns the address of the new
    value and a nil error. *)
Definition createNewClientMeta : M (nat * option Go.error) :=
  c ← this;
  p ← allocClientMeta (newClientMeta c);
  mret (p, None).

(** [func (c *Cannon) syncClockDrift]; [query] is what [ntp.Query] answers
    for a server at this moment. *)
Definition syncClockDrift (query : string -> Go.error + ntp.Response)
  : M (option Go.error) :=
  c ← this;
  match query (NTPServer (Config_ c)) with
  | inl err => mret (Some err)
  | inr response =>
    let err := ntp.Validate response in
    match err with
    | Some _ => mret err
    | None =>
      update (set_clockDrift (ntp.ClockOffset response));;
      c ← this;
      logged logrus.InfoLevel "Updated clock drift"
        [("drift"%string, logrus.VDuration (clockDrift c))];;
      mret err
    end
  end.

(** The function literal [startCrons] schedules. *)
Definition cronJob (query : string -> Go.error + ntp.Response) : M unit :=
  err ← syncClockDrift query;
  match err with
  | Some err =>
    logged logrus.ErrorLevel "Failed to sync clock drift"
      [("error"%string, logrus.VError err)]
  | None => mret tt
  end.

(** [func (c *Cannon) startCrons]. *)
Definition startCrons : M (option Go.error) :=
  match scheduler_Every_Do ext "5m" CronFn with
  | Some err => mret (Some err)
  | None =>
    update (fun c =>
      set_scheduler
        {| gocron.jobs := gocron.jobs (scheduler c)
                            ++ [ {| gocron.interval := "5m"; gocron.task := CronFn |} ];
           gocron.running := true |} c);;
    mret None
  end.

(** The first loop of [handleNewDecoratedEvents]: every sink gets the
    batch, and a sink's error becomes a log entry. *)
Fixpoint fanOut (events : list xatu.DecoratedEvent) (sinks : list output.Sink)
  : list output.Sink * list logrus.Entry :=
  match sinks with
  | [] => ([], [])
  | sink :: rest =>
    let '(sink', err) := output.HandleNewDecoratedEvents events sink in
    let failure :=
      match err with
      | Some err =>
        [ {| logrus.level := logrus.ErrorLevel;
             logrus.message := "Failed to send events to sink";
             logrus.fields :=
               [("error"%string, logrus.VError err);
                ("sink"%string, logrus.VString (output.Type_ sink));
                ("events"%string, logrus.VInt (Z.of_nat (length events)))] |} ]
      | None => []
      end in
    let '(rest', more) := fanOut events rest in
    (sink' :: rest', failure ++ more)
  end.

(** The second loop: one observation per event, labelled with the name of
    the beacon's network, which is dereferenced at every event. *)
Fixpoint countEvents (events : list xatu.DecoratedEvent) : M unit :=
  match events with
  | [] => mret tt
  | event :: rest =>
    c ← this;
    match ethereum.Network (ethereum.Metadata (beacon c)) with
    | None => panic
    | Some network =>
      update (fun c =>
        set_metrics
          {| namespace := namespace (metrics c);
             observations := observations (metrics c)
                               ++ [AddDecoratedEvent 1 event (networks.Name network)] |} c);;
      countEvents rest
    end
  end.

(** [func (c *Cannon) handleNewDecoratedEvents]. *)
Definition handleNewDecoratedEvents (events : list xatu.DecoratedEvent)
  : M (option Go.error) :=
  c ← this;
  let '(sinks', failures) := fanOut events (sinks c) in
  update (fun c => set_log (log c ++ failures) (set_sinks sinks' c));;
  countEvents events;;
  mret None.

(** [if err := m; err != nil { return err }] followed by [k]. *)
Definition orReturn (m k : M (option Go.error)) : M (option Go.error) :=
  err ← m;
  match err with
  | Some err => mret (Some err)
  | None => k
  end.

Notation "'try' m ';;;' k" := (orReturn m k)
  (at level 100, m at next level, k at level 200, right associativity).

Fixpoint forEach {A : Type} (body : A -> M unit) (l : list A) : M unit :=
  match l with
  | [] => mret tt
  | x :: rest => body x;; forEach body rest
  end.

(** A loop over the sinks that returns at the first error. *)
Fixpoint untilError (method : output.Sink -> output.Sink * option Go.error)
    (sinks : list output.Sink) : list output.Sink * option Go.error :=
  match sinks with
  | [] => ([], None)
  | sink :: rest =>
    let '(sink', err) := method sink in
    match err with
    | Some err => (sink' :: rest, Some err)
    | None =>
      let '(rest', err) := untilError method rest in
      (sink' :: rest', err)
    end
  end.

Definition eachSink (method : output.Sink -> output.Sink * option Go.error)
  : M (option Go.error) :=
  c ← this;
  let '(sinks', err) := untilError method (sinks c) in
  update (set_sinks sinks');;
  mret err.

(** The closure registered with [OnLocationUpdated], for the deriver [d]. *)
Definition locationUpdated (d : nat) (location : Z) : M (option Go.error) :=
  dv ← deref d;
  c ← this;
  match ethereum.Network (ethereum.Metadata (beacon c)) with
  | None => panic
  | Some network =>
    update (fun c =>
      set_metrics
        {| namespace := namespace (metrics c);
           observations := observations (metrics c)
             ++ [SetDeriverLocation location (deriver.CannonType dv) (networks.Name network)] |}
        c);;
    mret None
  end.

(** [deriver.Start(ctx)] on the deriver at [d]; [starts] gives the answer
    of each kind of deriver. *)
Definition startDeriver (starts : xatu.CannonType -> option Go.error) (d : nat)
  : M (option Go.error) :=
  dv ← deref d;
  store d (deriver.Start (starts (deriver.CannonType dv)) dv);;
  mret (starts (deriver.CannonType dv)).

(** The loop [for _, deriver := range c.eventDerivers] of the readiness
    callback. *)
Fixpoint startEach (starts : xatu.CannonType -> option Go.error) (ds : list nat)
  : M (option Go.error) :=
  match ds with
  | [] => mret None
  | d :: rest =>
    onDeriver d (deriver.OnEventsDerived OnEventsDerivedFn);;
    onDeriver d (deriver.OnLocationUpdated OnLocationUpdatedFn);;
    dv ← deref d;
    logged logrus.InfoLevel "Starting cannon event deriver"
      [("deriver"%string, logrus.VDeriverName (deriver.CannonType dv));
       ("type"%string, logrus.VCannonType (deriver.CannonType dv))];;
    try startDeriver starts d;;;
    startEach starts rest
  end.

(** The function literal given to [c.beacon.OnReady] in
    [startBeaconBlockProcessor]. *)
Definition onReady (starts : xatu.CannonType -> option Go.error) : M (option Go.error) :=
  logged logrus.InfoLevel "Internal beacon node is ready, firing up event derivers" [];;
  c ← this;
  match ethereum.Network (ethereum.Metadata (beacon c)) with
  | None => panic
  | Some network =>
    let networkName := networks.Name network in
    let networkID := Go.Sprintf_d (networks.ID network) in
    let wallclock := ethereum.Wallclock (ethereum.Metadata (beacon c)) in
    '(clientMeta, err) ← createNewClientMeta;
    match err with
    | Some err => mret (Some err)
    | None =>
      let checkpointIteratorMetrics := iterator.NewCheckpointMetrics "xatu_cannon" in
      let finalizedCheckpoint := "finalized"%string in
      eventDerivers' ← allocDerivers [
        v2.NewAttesterSlashingDeriver
          (AttesterSlashingConfig (Derivers (Config_ c)))
          (iterator.NewCheckpointIterator
             networkName
             networkID
             xatu.BEACON_API_ETH_V2_BEACON_BLOCK_ATTESTER_SLASHING
             (coordinatorClient c)
             wallclock
             checkpointIteratorMetrics
             finalizedCheckpoint)
          clientMeta;
        v2.NewProposerSlashingDeriver
          (ProposerSlashingConfig (Derivers (Config_ c)))
          (iterator.NewCheckpointIterator
             networkName
             networkID
             xatu.BEACON_API_ETH_V2_BEACON_BLOCK_PROPOSER_SLASHING
             (coordinatorClient c)
             wallclock
             checkpointIteratorMetrics
             finalizedCheckpoint)
          clientMeta;
        v2.NewVoluntaryExitDeriver
          (VoluntaryExitConfig (Derivers (Config_ c)))
          (iterator.NewCheckpointIterator
             networkName
             networkID
             xatu.BEACON_API_ETH_V2_BEACON_BLOCK_VOLUNTARY_EXIT
             (coordinatorClient c)
             wallclock
             checkpointIteratorMetrics
             finalizedCheckpoint)
          clientMeta;
        v2.NewDepositDeriver
          (DepositConfig (Derivers (Config_ c)))
          (iterator.NewCheckpointIterator
             networkName
             networkID
             xatu.BEACON_API_ETH_V2_BEACON_BLOCK_DEPOSIT
             (coordinatorClient c)
             wallclock
             checkpointIteratorMetrics
             finalizedCheckpoint)
          clientMeta;
        v2.NewBLSToExecutionChangeDeriver
          (BLSToExecutionConfig (Derivers (Config_ c)))
          (iterator.NewCheckpointIterator
             networkName
             networkID
             xatu.BEACON_API_ETH_V2_BEACON_BLOCK_BLS_TO_EXECUTION_CHANGE
             (coordinatorClient c)
             wallclock
             checkpointIteratorMetrics
             finalizedCheckpoint)
          clientMeta;
        v2.NewExecutionTransactionDeriver
          (ExecutionTransactionConfig (Derivers (Config_ c)))
          (iterator.NewCheckpointIterator
             networkName
             networkID
             xatu.BEACON_API_ETH_V2_BEACON_BLOCK_EXECUTION_TRANSACTION
             (coordinatorClient c)
             wallclock
             checkpointIteratorMetrics
             finalizedCheckpoint)
          clientMeta
      ];
      update (set_eventDerivers eventDerivers');;
      c ← this;
      startEach starts (eventDerivers c)
    end
  end.

(** [func (c *Cannon) startBeaconBlockProcessor]: registers the closure
    and returns nil. *)
Definition startBeaconBlockProcessor : M (option Go.error) :=
  update (fun c =>
    set_beacon
      {| ethereum.Metadata := ethereum.Metadata (beacon c);
         ethereum.onReadyCallbacks := ethereum.onReadyCallbacks (beacon c) ++ [OnReadyFn];
         ethereum.ready := ethereum.ready (beacon c);
         ethereum.startAnswer := ethereum.startAnswer (beacon c);
         ethereum.started := ethereum.started (beacon c) |} c);;
  mret None.

(** [c.beacon.Start(ctx)]. *)
Definition beaconStart : M (option Go.error) :=
  c ← this;
  match ethereum.startAnswer (beacon c) with
  | Some err => mret (Some err)
  | None =>
    update (fun c =>
      set_beacon
        {| ethereum.Metadata := ethereum.Metadata (beacon c);
           ethereum.onReadyCallbacks := ethereum.onReadyCallbacks (beacon c);
           ethereum.ready := ethereum.ready (beacon c);
           ethereum.startAnswer := ethereum.startAnswer (beacon c);
           ethereum.started := true |} c);;
    mret None
  end.

(** ** What happens around the orchestrator while [Start] waits *)

Inductive Happening :=
| BeaconLearns (md : ethereum.MetadataService)
| BeaconReady (starts : xatu.CannonType -> option Go.error)
| CronFires (query : string -> Go.error + ntp.Response)
| DeriverDerives (d : nat) (events : list xatu.DecoratedEvent)
| DeriverAdvances (d : nat) (location : Z)
| GoroutineRuns (g : nat) (listen : option Go.error).

(** The beacon node refreshes its metadata. *)
Definition beaconLearns (md : ethereum.MetadataService) : M unit :=
  update (fun c =>
    set_beacon
      {| ethereum.Metadata := md;
         ethereum.onReadyCallbacks := ethereum.onReadyCallbacks (beacon c);
         ethereum.ready := ethereum.ready (beacon c);
         ethereum.startAnswer := ethereum.startAnswer (beacon c);
         ethereum.started := ethereum.started (beacon c) |} c).

(** A call of a closure registered with [OnReady]; what the callback
    returns is dropped. *)
Definition callReady (starts : xatu.CannonType -> option Go.error) (fn : Closure)
  : M unit :=
  match fn with
  | OnReadyFn => onReady starts;; mret tt
  | _ => mret tt
  end.

Definition announce (c : Cannon) : Cannon :=
  set_beacon
    {| ethereum.Metadata := ethereum.Metadata (beacon c);
       ethereum.onReadyCallbacks := ethereum.onReadyCallbacks (beacon c);
       ethereum.ready := true;
       ethereum.startAnswer := ethereum.startAnswer (beacon c);
       ethereum.started := ethereum.started (beacon c) |} c.

(** Modelled from the spec: the beacon package is outside the embedded
    files.  Section 4.1: the ready signal invokes the registered callbacks
    exactly once per process lifetime. *)
Definition beaconReady (starts : xatu.CannonType -> option Go.error) : M unit :=
  c ← this;
  if ethereum.ready (beacon c) then mret tt
  else
    update announce;;
    forEach (callReady starts) (ethereum.onReadyCallbacks (beacon c)).

Definition runJob (query : string -> Go.error + ntp.Response) (job : gocron.Job)
  : M unit :=
  match gocron.task job with
  | CronFn => cronJob query
  | _ => mret tt
  end.

(** The scheduler, once started, runs its jobs. *)
Definition cronFires (query : string -> Go.error + ntp.Response) : M unit :=
  c ← this;
  if gocron.running (scheduler c) then forEach (runJob query) (gocron.jobs (scheduler c))
  else mret tt.

(** A call of a closure registered with [OnEventsDerived]. *)
Definition callEventsDerived (events : list xatu.DecoratedEvent) (fn : Closure) : M unit :=
  match fn with
  | OnEventsDerivedFn => handleNewDecoratedEvents events;; mret tt
  | _ => mret tt
  end.

(** A started deriver hands a batch to the callbacks registered with
    [OnEventsDerived].  The deriver packages are outside the embedded
    files: the batch is whatever the deriver made. *)
Definition deriverDerives (d : nat) (events : list xatu.DecoratedEvent)
  : M unit := fun s =>
  match derivers s !! d with
  | Some dv =>
    if deriver.started dv then
      forEach (callEventsDerived events) (deriver.onEventsDerived dv) s
    else (Returned tt, s)
  | None => (Returned tt, s)
  end.

(** A call of a closure registered with [OnLocationUpdated] on the deriver
    at [d]. *)
Definition callLocationUpdated (d : nat) (location : Z) (fn : Closure) : M unit :=
  match fn with
  | OnLocationUpdatedFn => locationUpdated d location;; mret tt
  | _ => mret tt
  end.

(** A started deriver reports its location to the callbacks registered
    with [OnLocationUpdated]. *)
Definition deriverAdvances (d : nat) (location : Z) : M unit := fun s =>
  match derivers s !! d with
  | Some dv =>
    if deriver.started dv then
      forEach (callLocationUpdated d location) (deriver.onLocationUpdated dv) s
    else (Returned tt, s)
  | None => (Returned tt, s)
  end.

(** The scheduler of the runtime picks the goroutine at [g]: its body
    runs, once. *)
Definition goroutineRuns (g : nat) (listen : option Go.error) : M unit := fun s =>
  match goroutines s !! g with
  | Some fn =>
    (match fn with
     | MetricsServerFn => metricsServer listen
     | PProfServerFn => pprofServer listen
     end)
      {| self := self s; clientMetas := clientMetas s; derivers := derivers s;
         goroutines := delete g (goroutines s) |}
  | None => (Returned tt, s)
  end.

Definition happens (h : Happening) : M unit :=
  match h with
  | BeaconLearns md => beaconLearns md
  | BeaconReady starts => beaconReady starts
  | CronFires query => cronFires query
  | DeriverDerives d events => deriverDerives d events
  | DeriverAdvances d location => deriverAdvances d location
  | GoroutineRuns g listen => goroutineRuns g listen
  end.

Definition run (hs : list Happening) : M unit := forEach happens hs.

(** ** [func (c *Cannon) Start]

    [Start] blocks on [sig := <-cancel].  [serve] is the method up to that
    receive, on the calling goroutine; [flush] is the rest; and [Start]
    runs what happens in between while it waits.  What the other
    goroutines do (the two servers, the scheduler's jobs, the beacon's
    announcement, the derivers' calls) is taken there, one happening at a
    time. *)

Definition serve : M (option Go.error) :=
  try ServeMetrics;;;
  c ← this;
  try (match PProfAddr (Config_ c) with
       | Some _ => ServePProf
       | None => mret None
       end);;;
  try startBeaconBlockProcessor;;;
  logged logrus.InfoLevel "Starting Xatu in cannon mode"
    [("version"%string, logrus.VVersion); ("id"%string, logrus.VString (id c))];;
  err ← startCrons;
  match err with
  | Some err =>
    logged logrus.FatalLevel "Failed to start crons" [("error"%string, logrus.VError err)];;
    exit
  | None =>
    try eachSink output.Start;;;
    (if decide (ethereum.OverrideNetworkName (Ethereum (Config_ c)) = ""%string)
     then mret tt
     else logged logrus.InfoLevel "Overriding network name"
            [("network"%string,
              logrus.VString (ethereum.OverrideNetworkName (Ethereum (Config_ c))))]);;
    try beaconStart;;;
    mret None
  end.

Definition flush (sig : syscall.Signal) : M (option Go.error) :=
  logged logrus.InfoLevel "Caught signal: %v" [("sig"%string, logrus.VSignal sig)];;
  logged logrus.InfoLevel "Flushing sinks" [];;
  try eachSink output.Stop;;;
  mret None.

Definition Start (whileWaiting : list Happening) (sig : syscall.Signal)
  : M (option Go.error) :=
  try serve;;;
  run whileWaiting;;
  flush sig.

End Methods.

(** ** A concrete deployment, for examples *)

Definition mainnet : ethereum.MetadataService :=
  {| ethereum.Network := Some {| networks.Name := "mainnet"; networks.ID := 1 |};
     ethereum.Client := "lighthouse";
     ethereum.NodeVersion := "Lighthouse/v4.5.0";
     ethereum.Wallclock :=
       {| ethereum.genesis := 1606824023000000000;
          ethereum.slotDuration := 12000000000;
          ethereum.slotsPerEpoch := 32 |} |}.

(** A sink that accepts every call. *)
Definition healthySink (type_ : string) : output.Sink :=
  {| output.Type_ := type_; output.received := []; output.answers := fun _ _ => None |}.

(** A sink that starts, and then fails every other call. *)
Definition brokenSink (type_ : string) : output.Sink :=
  {| output.Type_ := type_; output.received := [];
     output.answers := fun _ call =>
       match call with
       | output.CallStart => None
       | _ => Some "connection refused"%string
       end |}.

Definition enabled : deriver.Config := {| deriver.Enabled := true |}.

Definition exampleConfig : Config :=
  {| Name := "cannon-1";
     Labels := <["region"%string := "eu"%string]> ∅;
     NTPServer := "time.google.com";
     MetricsAddr := ":9090";
     PProfAddr := None;
     Ethereum := {| ethereum.BeaconNodeAddress := "http://localhost:5052";
                    ethereum.OverrideNetworkName := "" |};
     Derivers := {| AttesterSlashingConfig := enabled; ProposerSlashingConfig := enabled;
                    VoluntaryExitConfig := enabled; DepositConfig := enabled;
                    BLSToExecutionConfig := enabled; ExecutionTransactionConfig := enabled |};
     Coordinator := {| coordinator.Address := "localhost:8080"; coordinator.TLS := false |} |}.

(** A configuration is valid here when it names the instance. *)
Definition exampleExternals : Externals :=
  {| xatu_Short := "v0.0.100";
     xatu_Implementation := "Xatu";
     runtime_GOOS := "linux";
     Config_Validate := fun config =>
       if decide (Name config = ""%string) then Some "name is required"%string else None;
     Config_CreateSinks := fun _ => inr [brokenSink "http"; healthySink "stdout"];
     ethereum_NewBeaconNode := fun _ _ =>
       inr {| ethereum.Metadata := mainnet; ethereum.onReadyCallbacks := [];
              ethereum.ready := false; ethereum.startAnswer := None;
              ethereum.started := false |};
     coordinator_New := fun config => inr {| coordinator.config := config |};
     scheduler_Every_Do := fun _ _ => None |}.

Definition unnamedConfig : Config :=
  {| Name := ""; Labels := ∅; NTPServer := NTPServer exampleConfig;
     MetricsAddr := MetricsAddr exampleConfig; PProfAddr := None;
     Ethereum := Ethereum exampleConfig; Derivers := Derivers exampleConfig;
     Coordinator := Coordinator exampleConfig |}.

(** The orchestrator [New] builds from the example configuration. *)
Definition exampleCannon : Cannon :=
  default
    {| Config_ := exampleConfig; sinks := []; clockDrift := 0; log := []; id := "";
       beacon := {| ethereum.Metadata := mainnet; ethereum.onReadyCallbacks := [];
                    ethereum.ready := false; ethereum.startAnswer := None;
                    ethereum.started := false |};
       metrics := NewMetrics ""; scheduler := gocron.NewScheduler; eventDerivers := [];
       coordinatorClient := {| coordinator.config := Coordinator exampleConfig |} |}
    (New exampleExternals (Some exampleConfig) "3c1a0f5e-93d1-4b1e-8a1e-2f6d3b7c9e10").1.

(** A batch as a deriver of the example hands it over: one event per
    payload found in a block. *)
Definition exampleBatch (t : xatu.CannonType) (payloads : list string)
  : list xatu.DecoratedEvent :=
  imap (fun i payload =>
          {| xatu.event_type := t;
             xatu.meta_client := newClientMeta exampleExternals exampleCannon;
             xatu.event_date_time := 1700000000; xatu.data := payload;
             xatu.position_in_block := i |}) payloads.

(** NTP answers of the examples: an offset in nanoseconds that validates. *)
Definition ntpOffset (offset : time.Duration) : string -> Go.error + ntp.Response :=
  fun _ => inr {| ntp.ClockOffset := offset; ntp.Validate := None |}.

Definition allStart : xatu.CannonType -> option Go.error := fun _ => None.

(** A run of the example: [Start] reaches its wait, the drift is measured
    at 3ms, the beacon announces readiness, and the drift is measured
    again, at 250ms. *)
Definition exampleBefore : list Happening := [CronFires (ntpOffset 3000000)].






(** ** Vocabulary of the properties *)

(** [Steps R m]: running [m] from any state ends, whatever the outcome, in
    a state related to it by [R]. *)
Definition Steps (R : relation State) {A : Type} (m : M A) : Prop :=
  ∀ s, R s (m s).2.

(** The sinks and the log are as they were. *)
Definition sameSinksAndLog : relation State := fun s s' =>
  sinks (self s') = sinks (self s) ∧ log (self s') = log (self s).

(** What a sink holds after it was handed a batch, and the log entry its
    answer causes. *)
Definition handed (events : list xatu.DecoratedEvent) (sink : output.Sink)
  : output.Sink :=
  (output.HandleNewDecoratedEvents events sink).1.

Definition complaint (events : list xatu.DecoratedEvent) (sink : output.Sink)
  : list logrus.Entry :=
  match (output.HandleNewDecoratedEvents events sink).2 with
  | Some err =>
    [ {| logrus.level := logrus.ErrorLevel;
         logrus.message := "Failed to send events to sink";
         logrus.fields :=
           [("error"%string, logrus.VError err);
            ("sink"%string, logrus.VString (output.Type_ sink));
            ("events"%string, logrus.VInt (Z.of_nat (length events)))] |} ]
  | None => []
  end.

(** What a sink holds after [Stop], and that its [Stop] answers nil. *)
Definition stopped (sink : output.Sink) : output.Sink := (output.Stop sink).1.

Definition stops (sink : output.Sink) : Prop := (output.Stop sink).2 = None.

(** What a deriver was constructed with: its cannon type, its
    configuration, its iterator and the pointer to the client meta. *)
Definition blueprint (d : deriver.EventDeriver)
  : xatu.CannonType * deriver.Config * iterator.CheckpointIterator * nat :=
  (deriver.CannonType d, deriver.config d, deriver.iter d, deriver.clientMeta d).

(** The beacon handle is as it was. *)
Definition sameBeacon : relation State := fun s s' =>
  beacon (self s') = beacon (self s).

(** Nothing was constructed or re-assigned: the client metas, what the
    derivers were built with, and the [eventDerivers] field are as they
    were. *)
Definition sameConstruction : relation State := fun s s' =>
  clientMetas s' = clientMetas s
  ∧ map blueprint (derivers s') = map blueprint (derivers s)
  ∧ eventDerivers (self s') = eventDerivers (self s).

(** Nothing that readiness sets up has changed: the readiness flag and the
    callbacks of the beacon, both stores and the [eventDerivers] field. *)
Definition quiet : relation State := fun s s' =>
  ethereum.ready (beacon (self s')) = ethereum.ready (beacon (self s))
  ∧ ethereum.onReadyCallbacks (beacon (self s'))
    = ethereum.onReadyCallbacks (beacon (self s))
  ∧ clientMetas s' = clientMetas s
  ∧ derivers s' = derivers s
  ∧ eventDerivers (self s') = eventDerivers (self s).

(** Between two states in which readiness has not been announced, and from
    a state in which it has been announced on. *)
Definition unready : relation State := fun s s' =>
  ethereum.ready (beacon (self s')) = false → quiet s s'.

Definition readied : relation State := fun s s' =>
  ethereum.ready (beacon (self s)) = true → quiet s s'.

(** The six cannon types, in the order the readiness callback builds their
    derivers, and what the deriver of each type is built with: its part of
    the configuration, and an iterator for the beacon's network and the
    checkpoint "finalized". *)
Definition cannonTypes : list xatu.CannonType :=
  [ xatu.BEACON_API_ETH_V2_BEACON_BLOCK_ATTESTER_SLASHING;
    xatu.BEACON_API_ETH_V2_BEACON_BLOCK_PROPOSER_SLASHING;
    xatu.BEACON_API_ETH_V2_BEACON_BLOCK_VOLUNTARY_EXIT;
    xatu.BEACON_API_ETH_V2_BEACON_BLOCK_DEPOSIT;
    xatu.BEACON_API_ETH_V2_BEACON_BLOCK_BLS_TO_EXECUTION_CHANGE;
    xatu.BEACON_API_ETH_V2_BEACON_BLOCK_EXECUTION_TRANSACTION ].

Definition configOf (cfg : DeriversConfig) (t : xatu.CannonType) : deriver.Config :=
  match t with
  | xatu.BEACON_API_ETH_V2_BEACON_BLOCK_ATTESTER_SLASHING => AttesterSlashingConfig cfg
  | xatu.BEACON_API_ETH_V2_BEACON_BLOCK_PROPOSER_SLASHING => ProposerSlashingConfig cfg
  | xatu.BEACON_API_ETH_V2_BEACON_BLOCK_VOLUNTARY_EXIT => VoluntaryExitConfig cfg
  | xatu.BEACON_API_ETH_V2_BEACON_BLOCK_DEPOSIT => DepositConfig cfg
  | xatu.BEACON_API_ETH_V2_BEACON_BLOCK_BLS_TO_EXECUTION_CHANGE => BLSToExecutionConfig cfg
  | xatu.BEACON_API_ETH_V2_BEACON_BLOCK_EXECUTION_TRANSACTION =>
    ExecutionTransactionConfig cfg
  end.

Definition iteratorOf (c : Cannon) (network : networks.Network) (t : xatu.CannonType)
  : iterator.CheckpointIterator :=
  {| iterator.networkName := networks.Name network;
     iterator.networkID := Go.Sprintf_d (networks.ID network);
     iterator.cannonType := t;
     iterator.coordinatorClient := coordinatorClient c;
     iterator.wallclock := ethereum.Wallclock (ethereum.Metadata (beacon c));
     iterator.metrics := {| iterator.namespace := "xatu_cannon" |};
     iterator.checkpointName := "finalized" |}.

Definition blueprintOf (c : Cannon) (network : networks.Network) (clientMeta : nat)
    (t : xatu.CannonType)
  : xatu.CannonType * deriver.Config * iterator.CheckpointIterator * nat :=
  (t, configOf (Derivers (Config_ c)) t, iteratorOf c network t, clientMeta).

(** The state with the [eventDerivers] field overwritten, and what it
    means for a computation not to look at the field: started with any
    content in it, the computation has the same outcome and makes the same
    changes, and leaves that content in place. *)
Definition withDerivers (ds : list nat) (s : State) : State :=
  {| self := set_eventDerivers ds (self s);
     clientMetas := clientMetas s; derivers := derivers s; goroutines := goroutines s |}.

Definition Ignores {A : Type} (m : M A) : Prop :=
  ∀ ds s, m (withDerivers ds s) = ((m s).1, withDerivers ds (m s).2).

(** What a sink holds after [Start], and that its [Start] answers nil. *)
Definition begun (sink : output.Sink) : output.Sink := (output.Start sink).1.

Definition begins (sink : output.Sink) : Prop := (output.Start sink).2 = None.

(** The beacon handle with the readiness callback registered, and with
    [Start] done on top of that. *)
Definition subscribed (b : ethereum.BeaconNode) : ethereum.BeaconNode :=
  {| ethereum.Metadata := ethereum.Metadata b;
     ethereum.onReadyCallbacks := ethereum.onReadyCallbacks b ++ [OnReadyFn];
     ethereum.ready := ethereum.ready b;
     ethereum.startAnswer := ethereum.startAnswer b;
     ethereum.started := ethereum.started b |}.

Definition running (b : ethereum.BeaconNode) : ethereum.BeaconNode :=
  {| ethereum.Metadata := ethereum.Metadata b;
     ethereum.onReadyCallbacks := ethereum.onReadyCallbacks b;
     ethereum.ready := ethereum.ready b;
     ethereum.startAnswer := ethereum.startAnswer b;
     ethereum.started := true |}.

(** The scheduler with the drift job put on it and started. *)
Definition scheduled (sch : gocron.Scheduler) : gocron.Scheduler :=
  {| gocron.jobs := gocron.jobs sch
                      ++ [ {| gocron.interval := "5m"; gocron.task := CronFn |} ];
     gocron.running := true |}.

(** What a probe of the server yields: the offset of a response that
    validates, the error of the query or of the validation otherwise. *)
Definition probe (query : string -> Go.error + ntp.Response) (server : string)
  : Go.error + time.Duration :=
  match query server with
  | inr response =>
    match ntp.Validate response with
    | None => inr (ntp.ClockOffset response)
    | Some err => inl err
    end
  | inl err => inl err
  end.

(** The drift after one probe: the probe's offset, or the drift as it
    was. *)
Definition probed (server : string) (drift : time.Duration)
    (query : string -> Go.error + ntp.Response) : time.Duration :=
  match probe query server with
  | inr offset => offset
  | inl _ => drift
  end.

(** Whether the derivers of the given cannon types all start. *)
Definition allStarted (starts : xatu.CannonType -> option Go.error)
    (ts : list xatu.CannonType) : bool :=
  forallb (fun t => bool_decide (starts t = None)) ts.

(** The example cannon with a network name override configured. *)
Definition overridden : Cannon :=
  {| Config_ :=
       {| Name := Name exampleConfig; Labels := Labels exampleConfig;
          NTPServer := NTPServer exampleConfig;
          MetricsAddr := MetricsAddr exampleConfig; PProfAddr := None;
          Ethereum := {| ethereum.BeaconNodeAddress := "http://localhost:5052";
                         ethereum.OverrideNetworkName := "devnet-7" |};
          Derivers := Derivers exampleConfig;
          Coordinator := Coordinator exampleConfig |};
     sinks := []; beacon := beacon exampleCannon; clockDrift := 0; log := [];
     id := id exampleCannon; metrics := NewMetrics "xatu_cannon";
     scheduler := gocron.NewScheduler; eventDerivers := [];
     coordinatorClient := coordinatorClient exampleCannon |}.

(** The example cannon's beacon without a network, as before the beacon
    has learnt one. *)
Definition nowhere : ethereum.BeaconNode :=
  {| ethereum.Metadata :=
       {| ethereum.Network := None; ethereum.Client := ""; ethereum.NodeVersion := "";
          ethereum.Wallclock := ethereum.Wallclock mainnet |};
     ethereum.onReadyCallbacks := [OnReadyFn]; ethereum.ready := false;
     ethereum.startAnswer := None; ethereum.started := true |}.

(** One pass of the readiness callback's loop body over a deriver: both
    callbacks registered, then [Start] with the answer of its kind. *)
Definition attempted (starts : xatu.CannonType -> option Go.error)
    (d : deriver.EventDeriver) : deriver.EventDeriver :=
  deriver.Start (starts (deriver.CannonType d))
    (deriver.OnLocationUpdated OnLocationUpdatedFn
       (deriver.OnEventsDerived OnEventsDerivedFn d)).

(** The derivers after the readiness callback's loop: attempted up to and
    including the first whose [Start] fails, untouched behind it. *)
Fixpoint progress (starts : xatu.CannonType -> option Go.error)
    (new : list deriver.EventDeriver) : list deriver.EventDeriver :=
  match new with
  | [] => []
  | d :: rest =>
    attempted starts d ::
      match starts (deriver.CannonType d) with
      | None => progress starts rest
      | Some _ => rest
      end
  end.

(** The log entry one run of the cron job leaves: the new drift at info
    level when the probe succeeds, the error at error level otherwise. *)
Definition report (server : string) (query : string -> Go.error + ntp.Response)
  : logrus.Entry :=
  match probe query server with
  | inr offset =>
    {| logrus.level := logrus.InfoLevel; logrus.message := "Updated clock drift";
       logrus.fields := [("drift"%string, logrus.VDuration offset)] |}
  | inl err =>
    {| logrus.level := logrus.ErrorLevel; logrus.message := "Failed to sync clock drift";
       logrus.fields := [("error"%string, logrus.VError err)] |}
  end.

(** The state with the drift and the log replaced. *)
Definition withDriftAndLog (drift : time.Duration) (entries : list logrus.Entry)
    (s : State) : State :=
  {| self := set_log entries (set_clockDrift drift (self s));
     clientMetas := clientMetas s; derivers := derivers s; goroutines := goroutines s |}.

(** The configuration and the drift are as they were. *)
Definition sameDrift : relation State := fun s s' =>
  Config_ (self s') = Config_ (self s) ∧ clockDrift (self s') = clockDrift (self s).

(** The state with another drift in the orchestrator's field. *)
Definition withDrift (drift : time.Duration) (s : State) : State :=
  {| self := set_clockDrift drift (self s);
     clientMetas := clientMetas s; derivers := derivers s; goroutines := goroutines s |}.

(** The state with more observations on the metrics object. *)
Definition observing (more : list Observation) (s : State) : State :=
  {| self := set_metrics
               {| namespace := namespace (metrics (self s));
                  observations := observations (metrics (self s)) ++ more |} (self s);
     clientMetas := clientMetas s; derivers := derivers s; goroutines := goroutines s |}.

(** * Properties *)

(** ** Time windows *)

Lemma Active_readings (t : wallclock.TimeWindow) (k : time.Clock) :
  (wallclock.Active t k).1 = true ↔
  wallclock.start t < time.readings k (time.ticks k)
  ∧ time.readings k (S (time.ticks k)) < wallclock.end_ t.
Proof.
  unfold wallclock.Active, time.Now, time.Before, time.After; simpl.
  destruct (wallclock.start t <? time.readings k (time.ticks k)) eqn:Hs; simpl.
  - apply Z.ltb_lt in Hs. rewrite Z.ltb_lt. tauto.
  - apply Z.ltb_ge in Hs. split; [discriminate | lia].
Qed.

(** C9. A window built by [NewTimeWindow start end] gives back [start] and
    [end]; [Active] is true exactly when the current time is strictly
    after [start] and strictly before [end].  [Active] reads the clock
    twice: in general it compares [start] with the first reading and [end]
    with the second, and on a clock that does not run backwards a window
    whose end is not after its start is never active. *)
Theorem TimeWindow_Start_End_Active (start end_ : time.Time) :
  let w := wallclock.NewTimeWindow start end_ in
  wallclock.Start w = start
  ∧ wallclock.End_ w = end_
  ∧ (∀ now : time.Time,
       (wallclock.Active w (time.frozen now)).1 = true ↔ start < now ∧ now < end_)
  ∧ (∀ k : time.Clock,
       (wallclock.Active w k).1 = true ↔
       start < time.readings k (time.ticks k)
       ∧ time.readings k (S (time.ticks k)) < end_)
  ∧ (∀ k : time.Clock,
       time.monotone k → end_ ≤ start → (wallclock.Active w k).1 = false).
Proof.
  intros w. split; [reflexivity|]. split; [reflexivity|].
  split; [|split].
  - intros now. rewrite Active_readings. reflexivity.
  - intros k. rewrite Active_readings. reflexivity.
  - intros k Hmono Hle.
    destruct (wallclock.Active w k).1 eqn:Ha; [|reflexivity].
    apply Active_readings in Ha. simpl in Ha.
    pose proof (Hmono (time.ticks k) (S (time.ticks k)) ltac:(lia)). lia.
Qed.

(** ** [New] *)

(** C5. [New] returns an error and no Cannon when the configuration is nil
    or does not validate; when it returns a Cannon, the error is nil, the
    configuration was not nil and validated, and the Cannon holds it. *)
Theorem New_aborts_on_bad_config (ext : Externals) (config : option Config)
    (uuid : string) :
  (config = None ∨ (∃ c, config = Some c ∧ Config_Validate ext c ≠ None) →
   ∃ err, New ext config uuid = (None, Some err))
  ∧ (∀ cannon err,
       New ext config uuid = (Some cannon, err) →
       err = None
       ∧ ∃ c, config = Some c ∧ Config_Validate ext c = None ∧ Config_ cannon = c).
Proof.
  split.
  - intros [-> | (c & -> & Hv)]; simpl.
    + eexists; reflexivity.
    + destruct (Config_Validate ext c) as [err|]; [eexists; reflexivity | congruence].
  - intros cannon err. unfold New.
    destruct config as [c|]; [|discriminate].
    destruct (Config_Validate ext c) as [e|] eqn:Hv; [discriminate|].
    destruct (Config_CreateSinks ext c); [discriminate|].
    destruct (ethereum_NewBeaconNode ext _ _); [discriminate|].
    destruct (coordinator_New ext _); [discriminate|].
    intros [= <- <-]. split; [reflexivity|]. exists c. auto.
Qed.

Lemma New_aborts_on_bad_config_witness :
  (∃ err, New exampleExternals None "u" = (None, Some err))
  ∧ (∃ err, New exampleExternals (Some unnamedConfig) "u" = (None, Some err))
  ∧ (∃ c, Some exampleConfig = Some c
          ∧ Config_Validate exampleExternals c = None
          ∧ Config_ exampleCannon = c).
Proof.
  split; [|split].
  - apply (New_aborts_on_bad_config exampleExternals None "u"). left. reflexivity.
  - apply (New_aborts_on_bad_config exampleExternals (Some unnamedConfig) "u").
    right. exists unnamedConfig. split; [reflexivity | discriminate].
  - apply (proj2 (New_aborts_on_bad_config exampleExternals (Some exampleConfig)
                    "3c1a0f5e-93d1-4b1e-8a1e-2f6d3b7c9e10") exampleCannon None).
    vm_compute. reflexivity.
Defined.

Lemma server_Validate_nil_iff {Services Store GeoIP : Type}
    (service_Validate : Services → option Go.error)
    (store_Validate : Store → option Go.error)
    (geoip_Validate : GeoIP → option Go.error)
    (c : server.Config Services Store GeoIP) :
  server.Validate service_Validate store_Validate geoip_Validate c = None ↔
  service_Validate (server.Services_ c) = None
  ∧ store_Validate (server.Store_ c) = None
  ∧ geoip_Validate (server.GeoIP_ c) = None.
Proof.
  unfold server.Validate.
  destruct (service_Validate _), (store_Validate _), (geoip_Validate _);
    split; try discriminate; try tauto; intros (? & ? & ?); discriminate.
Qed.

(** ** What a computation does to the state

    With a reflexive and transitive [R], [Steps R] follows the structure
    of the method. *)

Section Steps.

Context (R : relation State) `{!PreOrder R}.

Lemma Steps_ret {A : Type} (a : A) : Steps R (mret a).
Proof. intros s. reflexivity. Qed.

Lemma Steps_this : Steps R this.
Proof. intros s. reflexivity. Qed.

Lemma Steps_panic {A : Type} : Steps R (@panic A).
Proof. intros s. reflexivity. Qed.

Lemma Steps_exit {A : Type} : Steps R (@exit A).
Proof. intros s. reflexivity. Qed.

Lemma Steps_bind {A B : Type} (m : M A) (k : A → M B) :
  Steps R m → (∀ a, Steps R (k a)) → Steps R (m ≫= k).
Proof.
  intros Hm Hk s. specialize (Hm s). unfold mbind, M_bind.
  destruct (m s) as [[a| |] s']; simpl in *; [|assumption..].
  transitivity s'; [assumption | apply Hk].
Qed.

Lemma Steps_orReturn (m k : M (option Go.error)) :
  Steps R m → Steps R k → Steps R (orReturn m k).
Proof.
  intros Hm Hk. apply Steps_bind; [assumption|].
  intros [err|]; [apply Steps_ret | assumption].
Qed.

Lemma Steps_forEach {A : Type} (body : A → M unit) (l : list A) :
  (∀ x, Steps R (body x)) → Steps R (forEach body l).
Proof.
  intros Hbody. induction l as [|x l IH]; simpl.
  - apply Steps_ret.
  - apply Steps_bind; [apply Hbody | intros _; exact IH].
Qed.

Lemma Steps_deref (p : nat) : Steps R (deref p).
Proof. intros s. unfold deref. destruct (derivers s !! p); reflexivity. Qed.

End Steps.

(** Breaks a goal [Steps R m] down along the binds, loops and case
    distinctions of [m]; what is left are the primitive state changes. *)
Ltac preorder := try match goal with |- PreOrder _ => exact _ end.

Create HintDb steps discriminated.
Create HintDb methods discriminated.

#[local] Hint Unfold ServeMetrics ServePProf createNewClientMeta syncClockDrift cronJob
  startCrons handleNewDecoratedEvents eachSink locationUpdated startDeriver onDeriver
  onReady startBeaconBlockProcessor beaconStart beaconLearns beaconReady cronFires
  callReady runJob callEventsDerived callLocationUpdated metricsServer pprofServer
  serve flush Start run happens : methods.

Ltac steps :=
  repeat first
    [ solve [auto 2 with steps nocore]
    | simple apply Steps_ret; preorder
    | simple apply Steps_this; preorder
    | simple apply Steps_panic; preorder
    | simple apply Steps_exit; preorder
    | simple apply Steps_deref; preorder
    | simple apply Steps_orReturn; preorder
    | simple apply Steps_forEach; preorder; intros ?
    | simple apply Steps_bind; preorder; [| intros ?]
    | match goal with
      | |- Steps _ (let _ := _ in _) => cbv zeta
      | |- Steps _ (match ?x with _ => _ end) => destruct x
      | |- Steps _ (if ?x then _ else _) => destruct x
      end
    | progress autounfold with methods ].

(** ** Fan-out to the sinks *)

#[local] Instance sameSinksAndLog_preorder : PreOrder sameSinksAndLog.
Proof.
  split.
  - intros s. split; reflexivity.
  - intros s1 s2 s3 [H1 H2] [H3 H4]. split; congruence.
Qed.

Lemma fanOut_handed_complaint events sinks :
  fanOut events sinks = (map (handed events) sinks, flat_map (complaint events) sinks).
Proof.
  induction sinks as [|sink rest IH]; simpl; [reflexivity|].
  rewrite IH. unfold complaint. simpl.
  destruct (output.answers sink (output.received sink)
              (output.CallHandleNewDecoratedEvents events)); reflexivity.
Qed.

Lemma countEvents_sameSinksAndLog events : Steps sameSinksAndLog (countEvents events).
Proof.
  induction events as [|event events IH]; simpl; steps.
  intros s. split; reflexivity.
Qed.

Lemma countEvents_outcome events s :
  (countEvents events s).1 = Returned tt ∨ (countEvents events s).1 = Panicked.
Proof.
  revert s. induction events as [|event events IH]; intros s; simpl; [left; reflexivity|].
  unfold mbind, M_bind, this, update, panic; simpl.
  destruct (ethereum.Network (ethereum.Metadata (beacon (self s)))); [|right; reflexivity].
  match goal with |- context [countEvents events ?s'] => specialize (IH s') end.
  destruct (countEvents events _) as [[[]| |] s']; simpl in *; tauto.
Qed.

Lemma countEvents_returns events s :
  is_Some (ethereum.Network (ethereum.Metadata (beacon (self s)))) ∨ events = [] →
  (countEvents events s).1 = Returned tt.
Proof.
  intros [Hnet | ->]; [|reflexivity].
  revert s Hnet. induction events as [|event events IH]; intros s [network Hnet]; simpl;
    [reflexivity|].
  unfold mbind, M_bind, this, update; simpl. rewrite Hnet.
  match goal with |- context [countEvents events ?s'] => specialize (IH s') end.
  destruct (countEvents events _) as [[[]| |] s']; simpl in *;
    first [reflexivity | apply IH; rewrite Hnet; eauto].
Qed.

Lemma handleNewDecoratedEvents_unfold events s :
  handleNewDecoratedEvents events s =
  let s1 :=
    {| self := set_log (log (self s) ++ flat_map (complaint events) (sinks (self s)))
                 (set_sinks (map (handed events) (sinks (self s))) (self s));
       clientMetas := clientMetas s; derivers := derivers s; goroutines := goroutines s |} in
  match countEvents events s1 with
  | (Returned _, s2) => (Returned None, s2)
  | (Panicked, s2) => (Panicked, s2)
  | (Exited, s2) => (Exited, s2)
  end.
Proof.
  unfold handleNewDecoratedEvents, mbind, M_bind, this. simpl.
  rewrite fanOut_handed_complaint. unfold update. simpl.
  destruct (countEvents events _) as [[[]| |] s2]; reflexivity.
Qed.

(** C1. [handleNewDecoratedEvents] hands the batch to every configured
    sink, in the order of the sink list; each sink that answers with an
    error leaves one error entry in the log, in the same order, and the
    sinks after it still get the same batch.  The method never returns an
    error, whatever the sinks answer: once the beacon's network is known
    (as it is from readiness on, the readiness callback dereferences it
    first) it returns nil. *)
Theorem handleNewDecoratedEvents_reaches_every_sink
    (events : list xatu.DecoratedEvent) (s : State) :
  let r := handleNewDecoratedEvents events s in
  sinks (self r.2) = map (handed events) (sinks (self s))
  ∧ (∀ sink, output.received (handed events sink)
             = output.received sink ++ [output.CallHandleNewDecoratedEvents events])
  ∧ log (self r.2) = log (self s) ++ flat_map (complaint events) (sinks (self s))
  ∧ (∀ err, r.1 ≠ Returned (Some err))
  ∧ (is_Some (ethereum.Network (ethereum.Metadata (beacon (self s)))) ∨ events = [] →
     r.1 = Returned None).
Proof.
  intros r. subst r. rewrite handleNewDecoratedEvents_unfold. simpl.
  match goal with |- context [countEvents events ?s'] => set (s1 := s') end.
  pose proof (countEvents_sameSinksAndLog events s1) as [Hsinks Hlog].
  pose proof (countEvents_returns events s1) as Hret.
  destruct (countEvents events s1) as [[[]| |] s2]; simpl in *;
    (split; [assumption|]; split; [reflexivity|]; split; [assumption|];
     split; [discriminate|]);
    first [reflexivity | intros Hnet; specialize (Hret Hnet); discriminate].
Qed.

Lemma handleNewDecoratedEvents_reaches_every_sink_witness :
  let s := boot exampleCannon in
  let batch := exampleBatch xatu.BEACON_API_ETH_V2_BEACON_BLOCK_DEPOSIT ["d1"; "d2"]%string in
  (handleNewDecoratedEvents batch s).1 = Returned None
  ∧ map output.received (sinks (self (handleNewDecoratedEvents batch s).2))
    = [[output.CallHandleNewDecoratedEvents batch]; [output.CallHandleNewDecoratedEvents batch]]
  ∧ length (log (self (handleNewDecoratedEvents batch s).2)) = 1%nat.
Proof.
  intros s batch.
  pose proof (handleNewDecoratedEvents_reaches_every_sink batch s)
    as (Hsinks & _ & Hlog & _ & Hret).
  split; [apply Hret; left; vm_compute; eauto|].
  split; [rewrite Hsinks | rewrite Hlog]; reflexivity.
Defined.

(** ** The clock drift *)

Lemma Milliseconds_neg (d : time.Duration) :
  d ≤ -1000000 → time.Milliseconds d < 0 ∧ d ≤ 1000000 * time.Milliseconds d.
Proof.
  intros Hd. unfold time.Milliseconds.
  pose proof (Z.quot_rem' d 1000000).
  pose proof (Z.rem_bound_pos_neg d 1000000 ltac:(lia) ltac:(lia)). lia.
Qed.

Lemma Milliseconds_sub_ms (d : time.Duration) :
  -1000000 < d < 1000000 → time.Milliseconds d = 0.
Proof.
  intros Hd. unfold time.Milliseconds.
  pose proof (Z.quot_rem' d 1000000).
  destruct (Z.le_gt_cases 0 d).
  - pose proof (Z.rem_bound_pos_pos d 1000000 ltac:(lia) ltac:(lia)). lia.
  - pose proof (Z.rem_bound_pos_neg d 1000000 ltac:(lia) ltac:(lia)). lia.
Qed.

Lemma Milliseconds_nonneg (d : time.Duration) :
  0 ≤ d → 0 ≤ time.Milliseconds d ≤ d.
Proof.
  intros Hd. unfold time.Milliseconds.
  pose proof (Z.quot_rem' d 1000000).
  pose proof (Z.rem_bound_pos_pos d 1000000 ltac:(lia) ltac:(lia)). lia.
Qed.

(** C10, as the code has it.  The [ClockDrift] stamped into the client
    meta is [uint64(clockDrift.Milliseconds())].  [Milliseconds] truncates
    toward zero, so the conversion wraps exactly when the drift is -1ms or
    less: the field is then 2^64 minus the magnitude in milliseconds, at
    least 2^63.  A negative drift of less than a millisecond is stamped
    as 0, a drift that is not negative as its milliseconds. *)
Theorem createNewClientMeta_ClockDrift (ext : Externals) (s : State) :
  Go.in_int64 (clockDrift (self s)) →
  let r := createNewClientMeta ext s in
  let ms := time.Milliseconds (clockDrift (self s)) in
  ∃ p meta,
    r.1 = Returned (p, None)
    ∧ clientMetas r.2 !! p = Some meta
    ∧ xatu.ClockDrift meta = Go.uint64 ms
    ∧ (clockDrift (self s) ≤ -1000000 →
       ms < 0 ∧ xatu.ClockDrift meta = 2 ^ 64 + ms ∧ 2 ^ 63 ≤ xatu.ClockDrift meta)
    ∧ (-1000000 < clockDrift (self s) < 0 → xatu.ClockDrift meta = 0)
    ∧ (0 ≤ clockDrift (self s) → xatu.ClockDrift meta = ms).
Proof.
  intros Hrange r ms. unfold Go.in_int64 in Hrange.
  exists (length (clientMetas s)), (newClientMeta ext (self s)).
  split; [reflexivity|]. split.
  { subst r. unfold createNewClientMeta, mbind, M_bind, this, allocClientMeta. simpl.
    apply list_lookup_middle. reflexivity. }
  simpl. fold ms. unfold Go.uint64. split; [reflexivity|].
  split; [|split].
  - intros Hd. destruct (Milliseconds_neg _ Hd) as [Hneg Hlow]. fold ms in Hneg, Hlow.
    assert (ms mod 2 ^ 64 = 2 ^ 64 + ms) as ->.
    { symmetry. apply (Z.mod_unique ms (2 ^ 64) (-1)); lia. }
    lia.
  - intros Hd. subst ms. rewrite Milliseconds_sub_ms by lia. reflexivity.
  - intros Hd. pose proof (Milliseconds_nonneg _ Hd). fold ms in H.
    apply Z.mod_small. lia.
Qed.

Lemma createNewClientMeta_ClockDrift_witness :
  let s := boot (set_clockDrift (-2500000000) exampleCannon) in
  ∃ p meta,
    (createNewClientMeta exampleExternals s).1 = Returned (p, None)
    ∧ clientMetas (createNewClientMeta exampleExternals s).2 !! p = Some meta
    ∧ xatu.ClockDrift meta = 2 ^ 64 - 2500.
Proof.
  intros s.
  destruct (createNewClientMeta_ClockDrift exampleExternals s)
    as (p & meta & Hr & Hp & _ & Hneg & _).
  { unfold Go.in_int64. simpl. lia. }
  exists p, meta. split; [exact Hr|]. split; [exact Hp|].
  destruct Hneg as (_ & -> & _); [simpl; lia | reflexivity].
Defined.

(** C10, as stated, fails.  A measured drift of half a millisecond behind
    is negative, and the field stamped is 0, not a wrapped value. *)
Lemma negative_drift_below_1ms_is_stamped_0 :
  let c := set_clockDrift (-500000) exampleCannon in
  clockDrift c < 0
  ∧ xatu.ClockDrift (newClientMeta exampleExternals c) = 0
  ∧ (createNewClientMeta exampleExternals (boot c)).2
    = {| self := c; clientMetas := [newClientMeta exampleExternals c]; derivers := [];
    goroutines := [] |}.
Proof. repeat split. Qed.

Lemma syncClockDrift_query_failed query s err :
  query (NTPServer (Config_ (self s))) = inl err →
  syncClockDrift query s = (Returned (Some err), s).
Proof. intros Hq. unfold syncClockDrift, mbind, M_bind, this. simpl. rewrite Hq. reflexivity. Qed.

Lemma syncClockDrift_invalid query s response err :
  query (NTPServer (Config_ (self s))) = inr response →
  ntp.Validate response = Some err →
  syncClockDrift query s = (Returned (Some err), s).
Proof.
  intros Hq Hv. unfold syncClockDrift, mbind, M_bind, this. simpl.
  rewrite Hq, Hv. reflexivity.
Qed.

Lemma syncClockDrift_valid query s response :
  query (NTPServer (Config_ (self s))) = inr response →
  ntp.Validate response = None →
  syncClockDrift query s
  = (Returned None,
     {| self :=
          set_log (log (self s)
                     ++ [ {| logrus.level := logrus.InfoLevel;
                             logrus.message := "Updated clock drift";
                             logrus.fields :=
                               [("drift"%string,
                                 logrus.VDuration (ntp.ClockOffset response))] |} ])
            (set_clockDrift (ntp.ClockOffset response) (self s));
        clientMetas := clientMetas s; derivers := derivers s; goroutines := goroutines s |}).
Proof.
  intros Hq Hv. unfold syncClockDrift, mbind, M_bind, this. simpl.
  rewrite Hq, Hv. reflexivity.
Qed.

Lemma cronJob_clockDrift query s :
  clockDrift (self (cronJob query s).2) = clockDrift (self (syncClockDrift query s).2).
Proof.
  unfold cronJob, mbind, M_bind.
  destruct (query (NTPServer (Config_ (self s)))) as [err|response] eqn:Hq.
  - rewrite (syncClockDrift_query_failed _ _ _ Hq). reflexivity.
  - destruct (ntp.Validate response) as [err|] eqn:Hv.
    + rewrite (syncClockDrift_invalid _ _ _ _ Hq Hv). reflexivity.
    + rewrite (syncClockDrift_valid _ _ _ Hq Hv). reflexivity.
Qed.

(** C6. [syncClockDrift] returns nil exactly when the NTP query and the
    validation of its response both succeed, and then [clockDrift] is the
    response's clock offset; when the query or the validation fails it
    returns that error and leaves the state, [clockDrift] included, as it
    was.  [startCrons] puts the job on the scheduler under the interval
    "5m", and a run of the scheduler's jobs is a run of
    [syncClockDrift]. *)
Theorem syncClockDrift_sets_drift_iff_valid
    (ext : Externals) (query : string → Go.error + ntp.Response) (s : State) :
  let r := syncClockDrift query s in
  let answer := query (NTPServer (Config_ (self s))) in
  (r.1 = Returned None ↔ ∃ response, answer = inr response ∧ ntp.Validate response = None)
  ∧ (∀ response, answer = inr response → ntp.Validate response = None →
       r.1 = Returned None ∧ clockDrift (self r.2) = ntp.ClockOffset response)
  ∧ (∀ err, answer = inl err → r.1 = Returned (Some err) ∧ r.2 = s)
  ∧ (∀ response err, answer = inr response → ntp.Validate response = Some err →
       r.1 = Returned (Some err) ∧ r.2 = s)
  ∧ (scheduler_Every_Do ext "5m" CronFn = None →
     gocron.jobs (scheduler (self s)) = [] →
     let s1 := (startCrons ext s).2 in
     scheduler (self s1)
     = {| gocron.jobs := [ {| gocron.interval := "5m"; gocron.task := CronFn |} ];
          gocron.running := true |}
     ∧ clockDrift (self (cronFires query s1).2)
       = clockDrift (self (syncClockDrift query s1).2)).
Proof.
  intros r answer. subst r answer.
  split; [|split; [|split; [|split]]].
  - destruct (query (NTPServer (Config_ (self s)))) as [err|response] eqn:Hq.
    + rewrite (syncClockDrift_query_failed _ _ _ Hq). simpl.
      split; [discriminate | intros (? & ? & _); discriminate].
    + destruct (ntp.Validate response) as [err|] eqn:Hv.
      * rewrite (syncClockDrift_invalid _ _ _ _ Hq Hv). simpl.
        split; [discriminate | intros (? & [= <-] & ?); congruence].
      * rewrite (syncClockDrift_valid _ _ _ Hq Hv). simpl. split; eauto.
  - intros response Hq Hv. rewrite (syncClockDrift_valid _ _ _ Hq Hv). auto.
  - intros err Hq. rewrite (syncClockDrift_query_failed _ _ _ Hq). auto.
  - intros response err Hq Hv. rewrite (syncClockDrift_invalid _ _ _ _ Hq Hv). auto.
  - intros Hdo Hjobs s1. subst s1.
    unfold startCrons. rewrite Hdo. unfold mbind, M_bind, update. simpl.
    rewrite Hjobs. simpl. split; [reflexivity|].
    unfold cronFires, mbind, M_bind, this. simpl. unfold runJob, mbind, M_bind. simpl.
    match goal with |- context [cronJob query ?s'] =>
      pose proof (cronJob_clockDrift query s') as Hjob;
      destruct (cronJob query s') as [[[]| |] s2]
    end; simpl in *; exact Hjob.
Qed.

Lemma syncClockDrift_sets_drift_iff_valid_witness :
  let s := boot exampleCannon in
  (syncClockDrift (ntpOffset 250000000) s).1 = Returned None
  ∧ clockDrift (self (syncClockDrift (ntpOffset 250000000) s).2) = 250000000
  ∧ syncClockDrift (fun _ => inl "i/o timeout"%string) s
    = (Returned (Some "i/o timeout"%string), s)
  ∧ clockDrift
      (self (cronFires (ntpOffset 250000000) (startCrons exampleExternals s).2).2)
    = 250000000.
Proof.
  intros s.
  pose proof (syncClockDrift_sets_drift_iff_valid exampleExternals (ntpOffset 250000000) s)
    as (_ & Hok & _ & _ & Hcron).
  pose proof (syncClockDrift_sets_drift_iff_valid exampleExternals
                (fun _ => inl "i/o timeout"%string) s) as (_ & _ & Hfail & _).
  destruct (Hok _ eq_refl eq_refl) as [Hr Hd].
  destruct (Hfail _ eq_refl) as [Hr' Hs'].
  destruct (Hcron eq_refl eq_refl) as [_ Hc].
  split; [exact Hr|]. split; [exact Hd|].
  split; [apply injective_projections; assumption|].
  rewrite Hc. reflexivity.
Defined.

(** ** Shutdown *)

Lemma untilError_all method sinks :
  Forall (λ sink, (method sink).2 = None) sinks →
  untilError method sinks = (map (λ sink, (method sink).1) sinks, None).
Proof.
  induction 1 as [|sink rest Hsink _ IH]; simpl; [reflexivity|].
  destruct (method sink) as [sink' err]; simpl in *. subst err. rewrite IH. reflexivity.
Qed.

Lemma untilError_first method before sink after err :
  Forall (λ sink, (method sink).2 = None) before →
  (method sink).2 = Some err →
  untilError method (before ++ sink :: after)
  = (map (λ sink, (method sink).1) before ++ (method sink).1 :: after, Some err).
Proof.
  intros Hbefore Hsink. induction Hbefore as [|x rest Hx _ IH]; simpl.
  - destruct (method sink) as [sink' e]; simpl in *. subst e. reflexivity.
  - destruct (method x) as [x' e]; simpl in *. subst e. rewrite IH. reflexivity.
Qed.

Lemma flush_untilError sig s :
  (flush sig s).1 = Returned (untilError output.Stop (sinks (self s))).2
  ∧ sinks (self (flush sig s).2) = (untilError output.Stop (sinks (self s))).1.
Proof.
  unfold flush, orReturn, eachSink, logged, mbind, M_bind, update, this. simpl.
  destruct (untilError output.Stop (sinks (self s))) as [sinks' [err|]]; simpl; auto.
Qed.

Lemma Start_flush ext hs sig s s0 s1 :
  serve ext s = (Returned None, s0) →
  run ext hs s0 = (Returned tt, s1) →
  Start ext hs sig s = flush sig s1.
Proof.
  intros Hserve Hrun. unfold Start, orReturn, mbind, M_bind.
  rewrite Hserve, Hrun. reflexivity.
Qed.

(** C7, as the code has it.  After the signal, [Start] calls [Stop] on the
    sinks in the order of the sink list and returns at the first [Stop]
    that fails, with that error; the sinks after it are not stopped.  When
    every [Stop] succeeds, every configured sink has been stopped and
    [Start] returns nil. *)
Theorem Start_stops_sinks_until_first_error
    (ext : Externals) (hs : list Happening) (sig : syscall.Signal) (s s0 s1 : State) :
  serve ext s = (Returned None, s0) →
  run ext hs s0 = (Returned tt, s1) →
  let r := Start ext hs sig s in
  (∀ sink, output.received (stopped sink) = output.received sink ++ [output.CallStop])
  ∧ (Forall stops (sinks (self s1)) →
     r.1 = Returned None ∧ sinks (self r.2) = map stopped (sinks (self s1)))
  ∧ (∀ before sink after err,
       sinks (self s1) = before ++ sink :: after →
       Forall stops before →
       (output.Stop sink).2 = Some err →
       r.1 = Returned (Some err)
       ∧ sinks (self r.2) = map stopped before ++ stopped sink :: after).
Proof.
  intros Hserve Hrun r. subst r. rewrite (Start_flush _ _ _ _ _ _ Hserve Hrun).
  destruct (flush_untilError sig s1) as [Hr Hsinks]. rewrite Hr, Hsinks.
  split; [reflexivity|]. split.
  - intros Hall. rewrite (untilError_all _ _ Hall). auto.
  - intros before sink after err -> Hbefore Hsink.
    rewrite (untilError_first _ _ _ _ _ Hbefore Hsink). auto.
Qed.

Lemma Start_stops_sinks_until_first_error_witness :
  let s := boot (set_sinks [healthySink "http"; healthySink "stdout"] exampleCannon) in
  let r := Start exampleExternals [CronFires (ntpOffset 250000000)] syscall.SIGTERM s in
  r.1 = Returned None
  ∧ map output.received (sinks (self r.2))
    = [[output.CallStart; output.CallStop]; [output.CallStart; output.CallStop]].
Proof.
  intros s r.
  assert (serve exampleExternals s = (Returned None, (serve exampleExternals s).2)) as H0
    by (vm_compute; reflexivity).
  assert (run exampleExternals [CronFires (ntpOffset 250000000)] (serve exampleExternals s).2
          = (Returned tt,
             (run exampleExternals [CronFires (ntpOffset 250000000)]
                (serve exampleExternals s).2).2)) as H1
    by (vm_compute; reflexivity).
  destruct (Start_stops_sinks_until_first_error exampleExternals
              [CronFires (ntpOffset 250000000)] syscall.SIGTERM s _ _ H0 H1)
    as (_ & Hall & _).
  destruct Hall as [Hr Hsinks].
  { repeat constructor. }
  split; [exact Hr|]. subst r. rewrite Hsinks. vm_compute. reflexivity.
Defined.

(** C7, as stated, fails.  With the sinks [http; stdout] and an http sink
    whose [Stop] fails, [Start] returns that error after the signal and
    the stdout sink is never stopped. *)
Lemma Start_leaves_later_sinks_unstopped :
  let r := Start exampleExternals [] syscall.SIGINT (boot exampleCannon) in
  r.1 = Returned (Some "connection refused"%string)
  ∧ map (λ sink, (output.Type_ sink, output.received sink)) (sinks (self r.2))
    = [("http"%string, [output.CallStart; output.CallStop]);
       ("stdout"%string, [output.CallStart])].
Proof. vm_compute. split; reflexivity. Qed.

(** ** What does not touch the readiness set-up *)

#[local] Instance sameBeacon_preorder : PreOrder sameBeacon.
Proof. split; [intros s; reflexivity | intros s1 s2 s3; unfold sameBeacon; congruence]. Qed.

#[local] Instance sameConstruction_preorder : PreOrder sameConstruction.
Proof.
  split.
  - intros s. repeat split.
  - intros s1 s2 s3 (? & ? & ?) (? & ? & ?). repeat split; congruence.
Qed.

#[local] Instance quiet_preorder : PreOrder quiet.
Proof.
  split.
  - intros s. repeat split.
  - intros s1 s2 s3 (? & ? & ? & ? & ?) (? & ? & ? & ? & ?). repeat split; congruence.
Qed.

#[local] Instance unready_preorder : PreOrder unready.
Proof.
  split.
  - intros s _. reflexivity.
  - intros s1 s2 s3 H12 H23 H3. specialize (H23 H3).
    transitivity s2; [apply H12; destruct H23 as [<- _]; exact H3 | exact H23].
Qed.

#[local] Instance readied_preorder : PreOrder readied.
Proof.
  split.
  - intros s _. reflexivity.
  - intros s1 s2 s3 H12 H23 H1. specialize (H12 H1).
    transitivity s2; [exact H12 | apply H23; destruct H12 as [-> _]; exact H1].
Qed.

(** A state change that is visibly within the relation. *)
Ltac primitive := intros ?; repeat split; reflexivity.

Lemma countEvents_quiet events : Steps quiet (countEvents events).
Proof. induction events as [|event events IH]; simpl; steps; primitive. Qed.

Lemma handleNewDecoratedEvents_quiet events : Steps quiet (handleNewDecoratedEvents events).
Proof.
  unfold handleNewDecoratedEvents. steps; [primitive | apply countEvents_quiet].
Qed.

Lemma locationUpdated_quiet d location : Steps quiet (locationUpdated d location).
Proof. unfold locationUpdated. steps. primitive. Qed.

Lemma syncClockDrift_quiet query : Steps quiet (syncClockDrift query).
Proof. unfold syncClockDrift. steps; primitive. Qed.

Lemma cronJob_quiet query : Steps quiet (cronJob query).
Proof. unfold cronJob. steps; primitive. Qed.







(** ** The readiness callback *)

Lemma onDeriver_sameBeacon p f : Steps sameBeacon (onDeriver p f).
Proof. steps; primitive. Qed.

Lemma startEach_sameBeacon starts ds : Steps sameBeacon (startEach starts ds).
Proof. induction ds as [|d ds IH]; simpl; steps; primitive. Qed.

Lemma onReady_sameBeacon ext starts : Steps sameBeacon (onReady ext starts).
Proof. unfold onReady. steps; first [primitive | apply startEach_sameBeacon]. Qed.

Lemma store_blueprint p d d' s :
  derivers s !! p = Some d → blueprint d' = blueprint d →
  sameConstruction s (store p d' s).2.
Proof.
  intros Hp Hd. split; [reflexivity|]. split; [|reflexivity]. simpl.
  rewrite list_fmap_insert, Hd. apply list_insert_id.
  rewrite list_lookup_fmap, Hp. reflexivity.
Qed.

Lemma onDeriver_sameConstruction p f :
  (∀ d, blueprint (f d) = blueprint d) → Steps sameConstruction (onDeriver p f).
Proof.
  intros Hf s. unfold onDeriver, mbind, M_bind, deref.
  destruct (derivers s !! p) as [d|] eqn:Hp; [|reflexivity].
  apply (store_blueprint p d); auto.
Qed.

Lemma startDeriver_sameConstruction starts d :
  Steps sameConstruction (startDeriver starts d).
Proof.
  intros s. unfold startDeriver, mbind, M_bind, deref.
  destruct (derivers s !! d) as [dv|] eqn:Hd; [|reflexivity].
  pose proof (store_blueprint d dv (deriver.Start (starts (deriver.CannonType dv)) dv) s Hd
                eq_refl) as H.
  destruct (store d _ s) as [[[]| |] s']; exact H.
Qed.

Lemma OnEventsDerived_sameConstruction p fn :
  Steps sameConstruction (onDeriver p (deriver.OnEventsDerived fn)).
Proof. apply onDeriver_sameConstruction. reflexivity. Qed.

Lemma OnLocationUpdated_sameConstruction p fn :
  Steps sameConstruction (onDeriver p (deriver.OnLocationUpdated fn)).
Proof. apply onDeriver_sameConstruction. reflexivity. Qed.

#[local] Hint Resolve OnEventsDerived_sameConstruction OnLocationUpdated_sameConstruction
  startDeriver_sameConstruction : steps.

Lemma startEach_sameConstruction starts ds : Steps sameConstruction (startEach starts ds).
Proof. induction ds as [|d ds IH]; simpl; steps; primitive. Qed.


(** The callback up to its loop: one client meta and six derivers are
    allocated and the pointers to the derivers are assigned to the
    field. *)
Lemma onReady_unfold ext starts s network :
  ethereum.Network (ethereum.Metadata (beacon (self s))) = Some network →
  ∃ six entry,
    map blueprint six
    = map (blueprintOf (self s) network (length (clientMetas s))) cannonTypes
    ∧ onReady ext starts s
      = startEach starts (seq (length (derivers s)) 6)
          {| self := set_eventDerivers (seq (length (derivers s)) 6)
                       (set_log (log (self s) ++ [entry]) (self s));
             clientMetas := clientMetas s ++ [newClientMeta ext (self s)];
             derivers := derivers s ++ six; goroutines := goroutines s |}.
Proof.
  intros Hnet. eexists. eexists. split; cycle 1.
  - unfold onReady, createNewClientMeta, logged, allocClientMeta, allocDerivers,
      mbind, M_bind, update, this. simpl. rewrite Hnet. reflexivity.
  - reflexivity.
Qed.

Lemma onReady_constructs ext starts s network :
  ethereum.Network (ethereum.Metadata (beacon (self s))) = Some network →
  let s' := (onReady ext starts s).2 in
  clientMetas s' = clientMetas s ++ [newClientMeta ext (self s)]
  ∧ map blueprint (derivers s')
    = map blueprint (derivers s)
      ++ map (blueprintOf (self s) network (length (clientMetas s))) cannonTypes
  ∧ eventDerivers (self s') = seq (length (derivers s)) 6.
Proof.
  intros Hnet s'. subst s'.
  destruct (onReady_unfold ext starts s network Hnet) as (six & entry & Hsix & ->).
  match goal with |- context [startEach starts ?ds ?s1] =>
    destruct (startEach_sameConstruction starts ds s1) as (Hm & Hb & He)
  end.
  rewrite Hm, Hb, He. simpl. rewrite map_app, Hsix. auto.
Qed.

(** A list of derivers whose blueprints are those of the six cannon types
    is a list of six derivers, one per type. *)
Lemma six_blueprints c network p (new : list deriver.EventDeriver) :
  map blueprint new = map (blueprintOf c network p) cannonTypes →
  length new = 6%nat
  ∧ map deriver.CannonType new = cannonTypes
  ∧ map deriver.iter new = map (iteratorOf c network) cannonTypes
  ∧ Forall (λ d, deriver.clientMeta d = p) new.
Proof.
  intros H.
  do 7 (destruct new as [|[] new]; try discriminate H).
  simpl in H. unfold blueprint, blueprintOf in H. simpl in H.
  injection H as -> -> -> -> -> -> -> -> -> -> -> -> -> -> -> -> -> -> -> -> -> -> -> ->.
  repeat split; repeat constructor.
Qed.

(** C4. When the readiness callback runs (the beacon's network is known),
    it constructs exactly six derivers, one per cannon type, in the order
    attester slashing, proposer slashing, voluntary exit, deposit,
    BLS-to-execution change, execution transaction.  Each holds an
    iterator of its own, for the same cannon type as the deriver, the name
    and the decimal id of the beacon's network, and the checkpoint
    "finalized"; the pointers to the six are what the callback assigns to
    [eventDerivers]. *)
Theorem onReady_constructs_six_derivers
    (ext : Externals) (starts : xatu.CannonType → option Go.error) (s : State)
    (network : networks.Network) :
  ethereum.Network (ethereum.Metadata (beacon (self s))) = Some network →
  let s' := (onReady ext starts s).2 in
  let new := drop (length (derivers s)) (derivers s') in
  length (derivers s') = (length (derivers s) + 6)%nat
  ∧ map deriver.CannonType new = cannonTypes
  ∧ NoDup cannonTypes
  ∧ (∀ t : xatu.CannonType, t ∈ cannonTypes)
  ∧ Forall (λ d,
       iterator.networkName (deriver.iter d) = networks.Name network
       ∧ iterator.networkID (deriver.iter d) = Go.Sprintf_d (networks.ID network)
       ∧ iterator.cannonType (deriver.iter d) = deriver.CannonType d
       ∧ iterator.checkpointName (deriver.iter d) = "finalized"%string) new
  ∧ NoDup (map deriver.iter new)
  ∧ eventDerivers (self s') = seq (length (derivers s)) 6.
Proof.
  intros Hnet s' new.
  destruct (onReady_constructs ext starts s network Hnet) as (_ & Hb & He).
  fold s' in Hb, He.
  assert (length (derivers s') = (length (derivers s) + 6)%nat) as Hlen.
  { rewrite <- (length_map blueprint), Hb, length_app, !length_map. reflexivity. }
  assert (map blueprint new
          = map (blueprintOf (self s) network (length (clientMetas s))) cannonTypes) as Hnew.
  { subst new. change (map blueprint ?l) with (blueprint <$> l).
    rewrite fmap_drop. change (blueprint <$> ?l) with (map blueprint l). rewrite Hb.
    rewrite <- (length_map blueprint (derivers s)). apply drop_app_length. }
  destruct (six_blueprints _ _ _ _ Hnew) as (_ & Htypes & Hiters & _).
  assert (NoDup cannonTypes) as Hnodup.
  { compute_done. }
  split; [exact Hlen|]. split; [exact Htypes|]. split; [exact Hnodup|].
  split; [intros []; compute_done|].
  split; [|split; [|exact He]].
  - clear -Hnew. do 7 (destruct new as [|[] new]; try discriminate Hnew).
    simpl in Hnew. unfold blueprint, blueprintOf in Hnew. simpl in Hnew.
    injection Hnew
      as -> -> -> -> -> -> -> -> -> -> -> -> -> -> -> -> -> -> -> -> -> -> -> ->.
    repeat constructor.
  - rewrite Hiters. change (map ?f ?l) with (f <$> l).
    apply NoDup_fmap_2; [|exact Hnodup]. intros t1 t2 [=]. assumption.
Qed.

Lemma onReady_constructs_six_derivers_witness :
  let s' := (onReady exampleExternals allStart (boot exampleCannon)).2 in
  length (derivers s') = 6%nat
  ∧ map deriver.CannonType (derivers s') = cannonTypes
  ∧ eventDerivers (self s') = [0; 1; 2; 3; 4; 5]%nat.
Proof.
  intros s'.
  destruct (onReady_constructs_six_derivers exampleExternals allStart (boot exampleCannon)
              {| networks.Name := "mainnet"; networks.ID := 1 |} eq_refl)
    as (Hlen & Htypes & _ & _ & _ & _ & He).
  split; [exact Hlen|]. split; [exact Htypes | exact He].
Defined.

(** ** Before and after readiness *)

















(** The batch a deriver hands over reaches every sink as it is. *)
Lemma handleNewDecoratedEvents_hands_over events s :
  sinks (self (handleNewDecoratedEvents events s).2) = map (handed events) (sinks (self s))
  ∧ clientMetas (handleNewDecoratedEvents events s).2 = clientMetas s
  ∧ derivers (handleNewDecoratedEvents events s).2 = derivers s.
Proof.
  destruct (handleNewDecoratedEvents_quiet events s) as (_ & _ & Hm & Hd & _).
  split; [|split; assumption].
  rewrite handleNewDecoratedEvents_unfold. cbv zeta.
  match goal with |- context [countEvents events ?s1] =>
    destruct (countEvents_sameSinksAndLog events s1) as [Hs _];
    destruct (countEvents events s1) as [[[]| |] s2]; exact Hs
  end.
Qed.



(** ** The drift after readiness *)

#[local] Instance sameDrift_preorder : PreOrder sameDrift.
Proof.
  split.
  - intros s. split; reflexivity.
  - intros s1 s2 s3 [? ?] [? ?]. split; congruence.
Qed.

Lemma startEach_sameDrift starts ds : Steps sameDrift (startEach starts ds).
Proof. induction ds as [|d ds IH]; simpl; steps; primitive. Qed.

Lemma onReady_sameDrift ext starts : Steps sameDrift (onReady ext starts).
Proof. unfold onReady. steps; first [primitive | apply startEach_sameDrift]. Qed.

Lemma withDriftAndLog_twice d1 l1 d2 l2 s :
  withDriftAndLog d2 l2 (withDriftAndLog d1 l1 s) = withDriftAndLog d2 l2 s.
Proof. reflexivity. Qed.

Lemma withDriftAndLog_same s :
  withDriftAndLog (clockDrift (self s)) (log (self s)) s = s.
Proof. destruct s as [[] ? ?]. reflexivity. Qed.

Lemma cronJob_probe query s :
  cronJob query s
  = (Returned tt,
     withDriftAndLog
       (probed (NTPServer (Config_ (self s))) (clockDrift (self s)) query)
       (log (self s) ++ [report (NTPServer (Config_ (self s))) query]) s).
Proof.
  unfold cronJob, probed, report, probe, mbind, M_bind.
  destruct (query (NTPServer (Config_ (self s)))) as [err|response] eqn:Hq.
  - rewrite (syncClockDrift_query_failed _ _ _ Hq).
    destruct s as [[] ? ?]. reflexivity.
  - destruct (ntp.Validate response) as [err|] eqn:Hv.
    + rewrite (syncClockDrift_invalid _ _ _ _ Hq Hv).
      destruct s as [[] ? ?]. reflexivity.
    + rewrite (syncClockDrift_valid _ _ _ Hq Hv). reflexivity.
Qed.

(** Any number of runs of the cron job: the drift is that of the last
    probe that succeeded, and both stores are as they were. *)
Lemma cronJob_runs queries s :
  let r := forEach cronJob queries s in
  clockDrift (self r.2)
  = foldl (probed (NTPServer (Config_ (self s)))) (clockDrift (self s)) queries
  ∧ clientMetas r.2 = clientMetas s
  ∧ derivers r.2 = derivers s.
Proof.
  revert s. induction queries as [|query queries IH]; intros s; [repeat split|].
  simpl forEach. unfold mbind, M_bind. rewrite cronJob_probe. cbv zeta.
  match goal with |- context [forEach cronJob queries ?s1] =>
    destruct (IH s1) as (Hdrift & Hm & Hd)
  end.
  rewrite Hdrift, Hm, Hd. repeat split.
Qed.

(** The closures the derivers call do not read the drift: whatever it is,
    they do the same. *)
Lemma countEvents_withDrift events drift s :
  countEvents events (withDrift drift s)
  = ((countEvents events s).1, withDrift drift (countEvents events s).2).
Proof.
  revert s. induction events as [|event events IH]; intros s; [reflexivity|].
  simpl. unfold mbind, M_bind, this, update, panic. simpl.
  destruct (ethereum.Network (ethereum.Metadata (beacon (self s)))); [|reflexivity].
  match goal with |- countEvents events ?s1 = (( countEvents events ?s2).1, _) =>
    change s1 with (withDrift drift s2)
  end.
  apply IH.
Qed.

Lemma handleNewDecoratedEvents_withDrift events drift s :
  handleNewDecoratedEvents events (withDrift drift s)
  = ((handleNewDecoratedEvents events s).1,
     withDrift drift (handleNewDecoratedEvents events s).2).
Proof.
  rewrite !handleNewDecoratedEvents_unfold. cbv zeta.
  match goal with |- match countEvents events ?s1 with _ => _ end
                     = ((match countEvents events ?s2 with _ => _ end).1, _) =>
    change s1 with (withDrift drift s2); rewrite (countEvents_withDrift events drift s2);
    destruct (countEvents events s2) as [[[]| |] s3]; reflexivity
  end.
Qed.

Lemma locationUpdated_withDrift d location drift s :
  locationUpdated d location (withDrift drift s)
  = ((locationUpdated d location s).1, withDrift drift (locationUpdated d location s).2).
Proof.
  unfold locationUpdated, mbind, M_bind, deref, this, update, panic. simpl.
  destruct (derivers s !! d); [|reflexivity]. simpl.
  destruct (ethereum.Network (ethereum.Metadata (beacon (self s)))); reflexivity.
Qed.

(** C3, what the code does.  Once the readiness callback has run, the
    drift that [syncClockDrift] keeps measuring moves the orchestrator's
    [clockDrift] field and nothing a deriver can see: the only client meta
    is the snapshot, whose [ClockDrift] is the drift at readiness in
    milliseconds; every deriver holds the pointer to it and is otherwise
    as the callback left it; and the two closures the derivers call hand
    the batch to the sinks as it is and do not read the drift. *)
Theorem live_drift_never_reaches_the_derivers
    (ext : Externals) (starts : xatu.CannonType → option Go.error) (s : State)
    (network : networks.Network) (queries : list (string → Go.error + ntp.Response)) :
  ethereum.Network (ethereum.Metadata (beacon (self s))) = Some network →
  let s1 := (onReady ext starts s).2 in
  let s2 := (forEach cronJob queries s1).2 in
  let snapshot := newClientMeta ext (self s) in
  clockDrift (self s2)
  = foldl (probed (NTPServer (Config_ (self s)))) (clockDrift (self s)) queries
  ∧ xatu.ClockDrift snapshot = Go.uint64 (time.Milliseconds (clockDrift (self s)))
  ∧ clientMetas s2 = clientMetas s ++ [snapshot]
  ∧ derivers s2 = derivers s1
  ∧ Forall (λ dv, clientMetas s2 !! deriver.clientMeta dv = Some snapshot)
      (drop (length (derivers s)) (derivers s2))
  ∧ (∀ events,
       sinks (self (handleNewDecoratedEvents events s2).2)
       = map (handed events) (sinks (self s2))
       ∧ clientMetas (handleNewDecoratedEvents events s2).2 = clientMetas s2)
  ∧ (∀ events drift,
       handleNewDecoratedEvents events (withDrift drift s2)
       = ((handleNewDecoratedEvents events s2).1,
          withDrift drift (handleNewDecoratedEvents events s2).2))
  ∧ (∀ d location drift,
       locationUpdated d location (withDrift drift s2)
       = ((locationUpdated d location s2).1,
          withDrift drift (locationUpdated d location s2).2)).
Proof.
  intros Hnet s1 s2 snapshot.
  destruct (onReady_constructs ext starts s network Hnet) as (Hm1 & Hb1 & _).
  fold s1 in Hm1, Hb1. fold snapshot in Hm1.
  destruct (onReady_sameDrift ext starts s) as [Hcfg Hdrift]. fold s1 in Hcfg, Hdrift.
  destruct (cronJob_runs queries s1) as (Hlive & Hm2 & Hd2). fold s2 in Hlive, Hm2, Hd2.
  split; [rewrite Hlive, Hcfg, Hdrift; reflexivity|].
  split; [reflexivity|]. split; [congruence|]. split; [exact Hd2|]. split.
  - rewrite Hd2, Hm2, Hm1.
    assert (map blueprint (drop (length (derivers s)) (derivers s1))
            = map (blueprintOf (self s) network (length (clientMetas s))) cannonTypes) as Hnew.
    { change (map blueprint ?l) with (blueprint <$> l).
      rewrite fmap_drop. change (blueprint <$> ?l) with (map blueprint l). rewrite Hb1.
      rewrite <- (length_map blueprint (derivers s)). apply drop_app_length. }
    destruct (six_blueprints _ _ _ _ Hnew) as (_ & _ & _ & Hptr).
    eapply Forall_impl; [exact Hptr|]. intros dv ->.
    apply list_lookup_middle. reflexivity.
  - split; [|split].
    + intros events.
      destruct (handleNewDecoratedEvents_hands_over events s2) as (Hs & Hm & _). auto.
    + intros events drift. apply handleNewDecoratedEvents_withDrift.
    + intros d location drift. apply locationUpdated_withDrift.
Qed.

Lemma live_drift_never_reaches_the_derivers_witness :
  let s := boot (set_clockDrift 3000000 exampleCannon) in
  let s1 := (onReady exampleExternals allStart s).2 in
  let s2 := (forEach cronJob [ntpOffset 250000000] s1).2 in
  Go.uint64 (time.Milliseconds (clockDrift (self s2))) = 250
  ∧ map xatu.ClockDrift (clientMetas s2) = [3]
  ∧ map deriver.clientMeta (derivers s2) = [0; 0; 0; 0; 0; 0]%nat.
Proof.
  intros s s1 s2.
  assert (ethereum.Network (ethereum.Metadata (beacon (self s)))
          = Some {| networks.Name := "mainnet"; networks.ID := 1 |}) as Hnet
    by (vm_compute; reflexivity).
  destruct (live_drift_never_reaches_the_derivers exampleExternals allStart s _
              [ntpOffset 250000000] Hnet) as (Hlive & Hstamp & Hm & _).
  fold s1 in Hlive, Hm. fold s2 in Hlive, Hm.
  split; [rewrite Hlive; vm_compute; reflexivity|].
  split; [rewrite Hm; vm_compute; reflexivity | vm_compute; reflexivity].
Defined.

(** ** The [eventDerivers] field before readiness *)

Section Ignores.

Lemma Ignores_ret {A : Type} (a : A) : Ignores (mret a).
Proof. intros ds s. reflexivity. Qed.

Lemma Ignores_panic {A : Type} : Ignores (@panic A).
Proof. intros ds s. reflexivity. Qed.

Lemma Ignores_exit {A : Type} : Ignores (@exit A).
Proof. intros ds s. reflexivity. Qed.

Lemma Ignores_bind {A B : Type} (m : M A) (k : A → M B) :
  Ignores m → (∀ a, Ignores (k a)) → Ignores (m ≫= k).
Proof.
  intros Hm Hk ds s. unfold mbind, M_bind. rewrite Hm.
  destruct (m s) as [[a| |] s']; simpl; [apply Hk | reflexivity..].
Qed.

(** Reading the receiver is fine as long as what follows does not depend
    on the field. *)
Lemma Ignores_this_bind {B : Type} (k : Cannon → M B) :
  (∀ ds c, k (set_eventDerivers ds c) = k c) → (∀ c, Ignores (k c)) →
  Ignores (this ≫= k).
Proof.
  intros Hindep Hk ds s. unfold mbind, M_bind, this. simpl.
  rewrite Hindep. apply Hk.
Qed.

Lemma Ignores_update (f : Cannon → Cannon) :
  (∀ ds c, f (set_eventDerivers ds c) = set_eventDerivers ds (f c)) →
  Ignores (update f).
Proof. intros Hf ds s. unfold update, withDerivers. simpl. rewrite Hf. reflexivity. Qed.

Lemma Ignores_orReturn (m k : M (option Go.error)) :
  Ignores m → Ignores k → Ignores (orReturn m k).
Proof.
  intros Hm Hk. apply Ignores_bind; [assumption|].
  intros [err|]; [apply Ignores_ret | assumption].
Qed.

Lemma Ignores_forEach {A : Type} (body : A → M unit) (l : list A) :
  (∀ x, Ignores (body x)) → Ignores (forEach body l).
Proof.
  intros Hbody. induction l as [|x l IH]; simpl.
  - apply Ignores_ret.
  - apply Ignores_bind; [apply Hbody | intros _; exact IH].
Qed.

Lemma Ignores_deref (p : nat) : Ignores (deref p).
Proof. intros ds s. unfold deref. simpl. destruct (derivers s !! p); reflexivity. Qed.

End Ignores.

Create HintDb ignores discriminated.

(** Follows the structure of a method that does not read
    [eventDerivers]. *)
Ltac ignores :=
  repeat first
    [ solve [auto 2 with ignores nocore]
    | simple apply Ignores_ret
    | simple apply Ignores_panic
    | simple apply Ignores_exit
    | simple apply Ignores_deref
    | simple apply Ignores_orReturn
    | simple apply Ignores_forEach; intros ?
    | simple apply Ignores_this_bind; [reflexivity | intros ?]
    | simple apply Ignores_bind; [| intros ?]
    | simple apply Ignores_update; reflexivity
    | match goal with
      | |- Ignores (let _ := _ in _) => cbv zeta
      | |- Ignores (match ?x with _ => _ end) => destruct x
      | |- Ignores (if ?x then _ else _) => destruct x
      end
    | progress autounfold with methods
    | progress unfold logged ].

Lemma spawn_Ignores g : Ignores (spawn g).
Proof. intros ds s. reflexivity. Qed.

#[local] Hint Resolve spawn_Ignores : ignores.

Lemma countEvents_Ignores events : Ignores (countEvents events).
Proof. induction events as [|event events IH]; simpl; ignores. Qed.

#[local] Hint Resolve countEvents_Ignores : ignores.

Lemma handleNewDecoratedEvents_Ignores events : Ignores (handleNewDecoratedEvents events).
Proof. ignores. Qed.

Lemma eachSink_Ignores method : Ignores (eachSink method).
Proof. ignores. Qed.






Lemma allocClientMeta_Ignores meta : Ignores (allocClientMeta meta).
Proof. intros ds s. reflexivity. Qed.

#[local] Hint Resolve allocClientMeta_Ignores : ignores.








(** * Further properties of the embedded code *)

(** ** Time windows: [EndsIn] and [StartsIn] *)

Lemma Sub_sign (t u : time.Time) :
  (time.Sub t u < 0 ↔ t < u) ∧ (0 < time.Sub t u ↔ u < t).
Proof.
  unfold time.Sub, time.minDuration, time.maxDuration.
  destruct (t - u <? - 2 ^ 63) eqn:Hlo; [apply Z.ltb_lt in Hlo; lia|].
  apply Z.ltb_ge in Hlo.
  destruct (2 ^ 63 - 1 <? t - u) eqn:Hhi; [apply Z.ltb_lt in Hhi | apply Z.ltb_ge in Hhi]; lia.
Qed.

Lemma Sub_exact (t u : time.Time) :
  time.minDuration ≤ t - u ≤ time.maxDuration → time.Sub t u = t - u.
Proof.
  unfold time.Sub. intros [Hlo Hhi].
  destruct (t - u <? time.minDuration) eqn:H1; [apply Z.ltb_lt in H1; lia|].
  destruct (time.maxDuration <? t - u) eqn:H2; [apply Z.ltb_lt in H2; lia|]. reflexivity.
Qed.

Lemma Sub_mono (t t' u u' : time.Time) :
  t ≤ t' → u' ≤ u → time.Sub t u ≤ time.Sub t' u'.
Proof.
  intros Ht Hu. unfold time.Sub, time.minDuration, time.maxDuration.
  repeat match goal with
         | |- context [?a <? ?b] => destruct (Z.ltb_spec a b)
         end; lia.
Qed.

(** X1. A window is active exactly when [StartsIn], called first, is
    negative and [EndsIn], called next on the same clock, is positive:
    the saturation of [Sub] does not change the sign. *)
Theorem Active_iff_StartsIn_negative_EndsIn_positive
    (t : wallclock.TimeWindow) (k : time.Clock) :
  (wallclock.Active t k).1 = true ↔
  (wallclock.StartsIn t k).1 < 0
  ∧ 0 < (wallclock.EndsIn t (wallclock.StartsIn t k).2).1.
Proof.
  rewrite Active_readings. unfold wallclock.StartsIn, wallclock.EndsIn, time.Now. simpl.
  destruct (Sub_sign (wallclock.start t) (time.readings k (time.ticks k))) as [-> _].
  destruct (Sub_sign (wallclock.end_ t) (time.readings k (S (time.ticks k)))) as [_ ->].
  reflexivity.
Qed.

(** X2. On a clock that does not run backwards, the time left until a
    window ends (or starts) never grows from one call to the next; a
    window that does not end before it starts never has less time left to
    its end than to its start; and when both differences fit in a
    [Duration], [EndsIn] exceeds [StartsIn] by the length of the window. *)
Theorem EndsIn_StartsIn_on_a_monotone_clock
    (t : wallclock.TimeWindow) (k : time.Clock) :
  time.monotone k →
  let now := time.readings k (time.ticks k) in
  (wallclock.EndsIn t (wallclock.EndsIn t k).2).1 ≤ (wallclock.EndsIn t k).1
  ∧ (wallclock.StartsIn t (wallclock.StartsIn t k).2).1 ≤ (wallclock.StartsIn t k).1
  ∧ (wallclock.start t ≤ wallclock.end_ t →
     (wallclock.StartsIn t k).1 ≤ (wallclock.EndsIn t k).1)
  ∧ (time.minDuration ≤ wallclock.start t - now →
     wallclock.end_ t - now ≤ time.maxDuration →
     wallclock.start t ≤ wallclock.end_ t →
     (wallclock.EndsIn t k).1 - (wallclock.StartsIn t k).1
     = wallclock.end_ t - wallclock.start t).
Proof.
  intros Hmono now. unfold wallclock.EndsIn, wallclock.StartsIn, time.Now. simpl.
  pose proof (Hmono (time.ticks k) (S (time.ticks k)) ltac:(lia)) as Hnext.
  split; [apply Sub_mono; lia|]. split; [apply Sub_mono; lia|].
  split; [intros Hle; apply Sub_mono; lia|].
  intros Hlo Hhi Hle. fold now. rewrite !Sub_exact by lia. lia.
Qed.

Lemma EndsIn_StartsIn_on_a_monotone_clock_witness :
  let t := wallclock.NewTimeWindow 100 160 in
  let k := {| time.readings := fun i => 90 + Z.of_nat i; time.ticks := 0 |} in
  (wallclock.EndsIn t k).1 = 70
  ∧ (wallclock.EndsIn t (wallclock.EndsIn t k).2).1 ≤ 70
  ∧ (wallclock.EndsIn t k).1 - (wallclock.StartsIn t k).1 = 60.
Proof.
  intros t k.
  assert (time.monotone k) as Hmono by (intros i j Hij; simpl; lia).
  destruct (EndsIn_StartsIn_on_a_monotone_clock t k Hmono) as (Hends & _ & _ & Hlen).
  split; [reflexivity|]. split; [exact Hends|].
  apply Hlen; vm_compute; discriminate.
Defined.

(** ** Package server: [Config.Validate] *)

(** X3. [Validate] returns nil exactly when the services, the store and
    the geoip configuration all validate; otherwise it returns the error
    of the first of the three, in that order, that does not, whatever
    the later ones say. *)
Theorem server_Validate_reports_first_failure {Services Store GeoIP : Type}
    (service_Validate : Services → option Go.error)
    (store_Validate : Store → option Go.error)
    (geoip_Validate : GeoIP → option Go.error)
    (c : server.Config Services Store GeoIP) :
  let r := server.Validate service_Validate store_Validate geoip_Validate c in
  (r = None ↔
   service_Validate (server.Services_ c) = None
   ∧ store_Validate (server.Store_ c) = None
   ∧ geoip_Validate (server.GeoIP_ c) = None)
  ∧ (∀ err, service_Validate (server.Services_ c) = Some err → r = Some err)
  ∧ (∀ err, service_Validate (server.Services_ c) = None →
            store_Validate (server.Store_ c) = Some err → r = Some err)
  ∧ (service_Validate (server.Services_ c) = None →
     store_Validate (server.Store_ c) = None →
     r = geoip_Validate (server.GeoIP_ c)).
Proof.
  intros r. subst r. unfold server.Validate.
  destruct (service_Validate _) as [e1|], (store_Validate _) as [e2|],
    (geoip_Validate _) as [e3|];
    repeat split; try discriminate; try tauto; try congruence;
    intros (? & ? & ?); discriminate.
Qed.

Lemma server_Validate_reports_first_failure_witness :
  let c : server.Config nat nat nat :=
    {| server.Addr := ":8080"; server.MetricsAddr := ":9090";
       server.LoggingLevel := "info"; server.Services_ := 1%nat;
       server.Store_ := 0%nat; server.GeoIP_ := 0%nat |} in
  let check (what : string) (n : nat) : option Go.error :=
    if decide (n = 0%nat) then Some what else None in
  server.Validate (check "no services") (check "no store") (check "no geoip") c
  = Some "no store"%string.
Proof.
  intros c check.
  apply (server_Validate_reports_first_failure
           (check "no services"%string) (check "no store"%string)
           (check "no geoip"%string) c); reflexivity.
Defined.

(** ** [New]: all the ways it ends *)

(** X4. [New] returns either a Cannon and a nil error, or no Cannon and an
    error, never both and never neither.  It returns a Cannon exactly when
    the configuration is there and validates and the sinks, the beacon
    node and the coordinator client are all constructed; the Cannon then
    holds exactly those, a zero clock drift, the drawn id, an idle
    scheduler and no derivers.  Otherwise the error is "config is
    required" for a nil configuration, and else that of the first step
    that failed, in the order validation, sinks, beacon node, coordinator
    client: a failing validation decides whatever the constructors would
    answer, failing sinks whatever the beacon node and the coordinator
    client would, and so on. *)
Theorem New_returns_cannon_xor_error (ext : Externals) (config : option Config)
    (uuid : string) :
  let r := New ext config uuid in
  (is_Some r.1 ↔ r.2 = None)
  ∧ (∀ cannon, r.1 = Some cannon →
       ∃ c, config = Some c
            ∧ Config_Validate ext c = None
            ∧ Config_CreateSinks ext c = inr (sinks cannon)
            ∧ ethereum_NewBeaconNode ext (Name c) (Ethereum c) = inr (beacon cannon)
            ∧ coordinator_New ext (Coordinator c) = inr (coordinatorClient cannon)
            ∧ Config_ cannon = c
            ∧ clockDrift cannon = 0
            ∧ id cannon = uuid
            ∧ scheduler cannon = gocron.NewScheduler
            ∧ eventDerivers cannon = [])
  ∧ (∀ c ss b client,
       config = Some c → Config_Validate ext c = None →
       Config_CreateSinks ext c = inr ss →
       ethereum_NewBeaconNode ext (Name c) (Ethereum c) = inr b →
       coordinator_New ext (Coordinator c) = inr client →
       is_Some r.1)
  ∧ (config = None → r = (None, Some "config is required"%string))
  ∧ (∀ c err, config = Some c → Config_Validate ext c = Some err → r = (None, Some err))
  ∧ (∀ c err, config = Some c → Config_Validate ext c = None →
       Config_CreateSinks ext c = inl err → r = (None, Some err))
  ∧ (∀ c ss err, config = Some c → Config_Validate ext c = None →
       Config_CreateSinks ext c = inr ss →
       ethereum_NewBeaconNode ext (Name c) (Ethereum c) = inl err →
       r = (None, Some err))
  ∧ (∀ c ss b err, config = Some c → Config_Validate ext c = None →
       Config_CreateSinks ext c = inr ss →
       ethereum_NewBeaconNode ext (Name c) (Ethereum c) = inr b →
       coordinator_New ext (Coordinator c) = inl err →
       r = (None, Some err)).
Proof.
  intros r. subst r. unfold New.
  destruct config as [c|]; simpl;
    [destruct (Config_Validate ext c) as [e|] eqn:Hv; simpl;
     [|destruct (Config_CreateSinks ext c) as [e|ss] eqn:Hs; simpl;
       [|destruct (ethereum_NewBeaconNode ext (Name c) (Ethereum c)) as [e|b] eqn:Hb; simpl;
         [|destruct (coordinator_New ext (Coordinator c)) as [e|client] eqn:Hc; simpl]]]|].
  all: repeat split; intros; simplify_eq/=;
    try match goal with H : is_Some None |- _ => destruct H as [? [=]] end;
    try done; try congruence; eauto 12.
Qed.

Lemma New_returns_cannon_xor_error_witness :
  let failing : Externals :=
    {| xatu_Short := xatu_Short exampleExternals;
       xatu_Implementation := xatu_Implementation exampleExternals;
       runtime_GOOS := runtime_GOOS exampleExternals;
       Config_Validate := Config_Validate exampleExternals;
       Config_CreateSinks := Config_CreateSinks exampleExternals;
       ethereum_NewBeaconNode := fun _ _ => inl "no beacon node address"%string;
       coordinator_New := fun _ => inl "no coordinator address"%string;
       scheduler_Every_Do := scheduler_Every_Do exampleExternals |} in
  New failing (Some exampleConfig) "u" = (None, Some "no beacon node address"%string)
  ∧ is_Some (New exampleExternals (Some exampleConfig) "u").1
  ∧ New failing None "u" = (None, Some "config is required"%string)
  ∧ New failing (Some unnamedConfig) "u" = (None, Some "name is required"%string).
Proof.
  intros failing. split; [|split; [|split]].
  - apply (New_returns_cannon_xor_error failing (Some exampleConfig) "u") with
      (c := exampleConfig) (ss := [brokenSink "http"; healthySink "stdout"]);
      reflexivity.
  - eapply (New_returns_cannon_xor_error exampleExternals (Some exampleConfig) "u");
      reflexivity.
  - destruct (New_returns_cannon_xor_error failing None "u") as (_ & _ & _ & Hnil & _).
    apply Hnil. reflexivity.
  - destruct (New_returns_cannon_xor_error failing (Some unnamedConfig) "u")
      as (_ & _ & _ & _ & Hinvalid & _).
    apply (Hinvalid unnamedConfig); reflexivity.
Defined.

(** ** [Start]: the way to the wait for the signal *)

(** Everything [Start] does before it waits, case by case. *)
Lemma serve_outcome ext s :
  let r := serve ext s in
  (Config_ (self r.2) = Config_ (self s)
   ∧ clockDrift (self r.2) = clockDrift (self s)
   ∧ id (self r.2) = id (self s)
   ∧ metrics (self r.2) = metrics (self s)
   ∧ eventDerivers (self r.2) = eventDerivers (self s)
   ∧ clientMetas r.2 = clientMetas s
   ∧ derivers r.2 = derivers s)
  ∧ match scheduler_Every_Do ext "5m" CronFn with
    | Some err =>
      r.1 = Exited
      ∧ sinks (self r.2) = sinks (self s)
      ∧ beacon (self r.2) = subscribed (beacon (self s))
      ∧ scheduler (self r.2) = scheduler (self s)
      ∧ last (log (self r.2))
        = Some {| logrus.level := logrus.FatalLevel;
                  logrus.message := "Failed to start crons";
                  logrus.fields := [("error"%string, logrus.VError err)] |}
    | None =>
      scheduler (self r.2) = scheduled (scheduler (self s))
      ∧ sinks (self r.2) = (untilError output.Start (sinks (self s))).1
      ∧ match (untilError output.Start (sinks (self s))).2 with
        | Some err =>
          r.1 = Returned (Some err) ∧ beacon (self r.2) = subscribed (beacon (self s))
        | None =>
          match ethereum.startAnswer (beacon (self s)) with
          | Some err =>
            r.1 = Returned (Some err) ∧ beacon (self r.2) = subscribed (beacon (self s))
          | None =>
            r.1 = Returned None ∧ beacon (self r.2) = running (subscribed (beacon (self s)))
          end
        end
    end.
Proof.
  intros r. subst r.
  destruct s as [[[nm lbl ntpServer maddr paddr eth dcfg ccfg] ss b drift lg i m sch ed cc]
                   ms dvs].
  destruct b as [md cbs rdy answer st]. destruct eth as [baddr override].
  unfold serve, orReturn, ServeMetrics, ServePProf, startBeaconBlockProcessor, startCrons,
    eachSink, beaconStart, logged, mbind, M_bind, update, this, exit, panic, mret, M_ret.
  simpl.
  destruct paddr as [addr|]; simpl;
    (destruct (scheduler_Every_Do ext "5m" CronFn) as [err|]; simpl;
     [repeat split; apply last_snoc|]);
    (destruct (untilError output.Start ss) as [ss' [err'|]]; simpl;
     [repeat split; reflexivity|]);
    destruct (decide (override = ""%string)); simpl;
    destruct answer; simpl; repeat split; reflexivity.
Qed.


Lemma Start_ends_with_serve ext hs sig s :
  (serve ext s).1 ≠ Returned None → Start ext hs sig s = serve ext s.
Proof.
  intros H. unfold Start, orReturn, mbind, M_bind.
  destruct (serve ext s) as [[[err|]| |] s']; simpl in *;
    first [reflexivity | congruence].
Qed.



(** X6. When a sink's [Start] fails, [Start] returns that error at once:
    the sinks before it have been started and are not stopped, the sinks
    after it are not touched, the beacon is not started, and neither what
    happens afterwards nor the signal plays a part. *)
Theorem Start_returns_first_sink_Start_error
    (ext : Externals) (hs : list Happening) (sig : syscall.Signal) (s : State)
    (before after : list output.Sink) (sink : output.Sink) (err : Go.error) :
  scheduler_Every_Do ext "5m" CronFn = None →
  sinks (self s) = before ++ sink :: after →
  Forall begins before →
  (output.Start sink).2 = Some err →
  let r := Start ext hs sig s in
  r.1 = Returned (Some err)
  ∧ sinks (self r.2) = map begun before ++ begun sink :: after
  ∧ beacon (self r.2) = subscribed (beacon (self s))
  ∧ ethereum.started (beacon (self r.2)) = ethereum.started (beacon (self s)).
Proof.
  intros Hsch Hsinks Hbefore Hsink r.
  destruct (serve_outcome ext s) as (_ & H). rewrite Hsch, Hsinks in H.
  rewrite (untilError_first _ _ _ _ _ Hbefore Hsink) in H. simpl in H.
  destruct H as (_ & Hss & Hr & Hb).
  subst r. rewrite Start_ends_with_serve by (rewrite Hr; discriminate).
  rewrite Hr, Hss, Hb. repeat split.
Qed.

Lemma Start_returns_first_sink_Start_error_witness :
  let dead : output.Sink :=
    {| output.Type_ := "kafka"; output.received := [];
       output.answers := fun _ _ => Some "no brokers"%string |} in
  let s := boot (set_sinks [healthySink "http"; dead; healthySink "stdout"] exampleCannon) in
  let r := Start exampleExternals exampleBefore syscall.SIGINT s in
  r.1 = Returned (Some "no brokers"%string)
  ∧ map output.received (sinks (self r.2)) = [[output.CallStart]; [output.CallStart]; []]
  ∧ ethereum.started (beacon (self r.2)) = false.
Proof.
  intros dead s r.
  destruct (Start_returns_first_sink_Start_error exampleExternals exampleBefore
              syscall.SIGINT s [healthySink "http"] [healthySink "stdout"] dead
              "no brokers"%string eq_refl eq_refl)
    as (Hr & Hss & _ & Hst); [repeat constructor | reflexivity |].
  split; [exact Hr|]. split; [subst r; rewrite Hss; reflexivity|].
  subst r. rewrite Hst. reflexivity.
Defined.

(** X7. When the scheduler refuses the cron job, [Start] logs the error at
    fatal level and the process exits: no sink has been started, the
    beacon is not started, and only the readiness callback has been
    registered. *)
Theorem Start_exits_when_cron_is_refused
    (ext : Externals) (hs : list Happening) (sig : syscall.Signal) (s : State)
    (err : Go.error) :
  scheduler_Every_Do ext "5m" CronFn = Some err →
  let r := Start ext hs sig s in
  r.1 = Exited
  ∧ last (log (self r.2))
    = Some {| logrus.level := logrus.FatalLevel;
              logrus.message := "Failed to start crons";
              logrus.fields := [("error"%string, logrus.VError err)] |}
  ∧ sinks (self r.2) = sinks (self s)
  ∧ scheduler (self r.2) = scheduler (self s)
  ∧ beacon (self r.2) = subscribed (beacon (self s)).
Proof.
  intros Hsch r.
  destruct (serve_outcome ext s) as (_ & H). rewrite Hsch in H.
  destruct H as (Hr & Hss & Hb & Hsc & Hlog).
  subst r. rewrite Start_ends_with_serve by (rewrite Hr; discriminate).
  repeat split; assumption.
Qed.

Lemma Start_exits_when_cron_is_refused_witness :
  let strict : Externals :=
    {| xatu_Short := xatu_Short exampleExternals;
       xatu_Implementation := xatu_Implementation exampleExternals;
       runtime_GOOS := runtime_GOOS exampleExternals;
       Config_Validate := Config_Validate exampleExternals;
       Config_CreateSinks := Config_CreateSinks exampleExternals;
       ethereum_NewBeaconNode := ethereum_NewBeaconNode exampleExternals;
       coordinator_New := coordinator_New exampleExternals;
       scheduler_Every_Do := fun _ _ => Some "job already scheduled"%string |} in
  let r := Start strict [] syscall.SIGTERM (boot exampleCannon) in
  r.1 = Exited ∧ map output.received (sinks (self r.2)) = [[]; []].
Proof.
  intros strict r.
  destruct (Start_exits_when_cron_is_refused strict [] syscall.SIGTERM (boot exampleCannon)
              "job already scheduled"%string eq_refl) as (Hr & _ & Hss & _).
  split; [exact Hr|]. subst r. rewrite Hss. vm_compute. reflexivity.
Defined.

(** X8. When the beacon's [Start] fails, [Start] returns that error with
    every sink started and none stopped. *)
Theorem Start_returns_beacon_Start_error
    (ext : Externals) (hs : list Happening) (sig : syscall.Signal) (s : State)
    (err : Go.error) :
  scheduler_Every_Do ext "5m" CronFn = None →
  Forall begins (sinks (self s)) →
  ethereum.startAnswer (beacon (self s)) = Some err →
  let r := Start ext hs sig s in
  r.1 = Returned (Some err)
  ∧ sinks (self r.2) = map begun (sinks (self s))
  ∧ scheduler (self r.2) = scheduled (scheduler (self s))
  ∧ beacon (self r.2) = subscribed (beacon (self s)).
Proof.
  intros Hsch Hall Hanswer r.
  destruct (serve_outcome ext s) as (_ & H). rewrite Hsch, Hanswer in H.
  rewrite (untilError_all _ _ Hall) in H. simpl in H.
  destruct H as (Hsc & Hss & Hr & Hb).
  subst r. rewrite Start_ends_with_serve by (rewrite Hr; discriminate).
  repeat split; assumption.
Qed.

Lemma Start_returns_beacon_Start_error_witness :
  let unreachable : ethereum.BeaconNode :=
    {| ethereum.Metadata := mainnet; ethereum.onReadyCallbacks := [];
       ethereum.ready := false; ethereum.startAnswer := Some "dial tcp: refused"%string;
       ethereum.started := false |} in
  let s := boot (set_beacon unreachable exampleCannon) in
  let r := Start exampleExternals [] syscall.SIGINT s in
  r.1 = Returned (Some "dial tcp: refused"%string)
  ∧ map output.received (sinks (self r.2)) = [[output.CallStart]; [output.CallStart]].
Proof.
  intros unreachable s r.
  destruct (Start_returns_beacon_Start_error exampleExternals [] syscall.SIGINT s
              "dial tcp: refused"%string eq_refl) as (Hr & Hss & _);
    [repeat constructor | reflexivity |].
  split; [exact Hr|]. subst r. rewrite Hss. vm_compute. reflexivity.
Defined.

(** ** The client meta and the network name override *)

(** X9. [createNewClientMeta] never fails: it allocates one client meta
    and changes nothing else.  The meta has a network exactly when the
    beacon has one; its id is the beacon network's, and its name is the
    configured override when that is not empty, the beacon network's name
    otherwise. *)
Theorem createNewClientMeta_network (ext : Externals) (s : State) :
  let r := createNewClientMeta ext s in
  let override := ethereum.OverrideNetworkName (Ethereum (Config_ (self s))) in
  ∃ meta,
    r = (Returned (length (clientMetas s), None),
         {| self := self s; clientMetas := clientMetas s ++ [meta];
            derivers := derivers s; goroutines := goroutines s |})
    ∧ (ethereum.Network (ethereum.Metadata (beacon (self s))) = None →
       xatu.Network (xatu.Ethereum meta) = None)
    ∧ (∀ network,
         ethereum.Network (ethereum.Metadata (beacon (self s))) = Some network →
         ∃ named,
           xatu.Network (xatu.Ethereum meta) = Some named
           ∧ xatu.Network_Id named = networks.ID network
           ∧ (override = ""%string → xatu.Network_Name named = networks.Name network)
           ∧ (override ≠ ""%string → xatu.Network_Name named = override))
    ∧ xatu.Name meta = Name (Config_ (self s))
    ∧ xatu.Id meta = id (self s)
    ∧ xatu.Labels meta = Labels (Config_ (self s)).
Proof.
  intros r override. exists (newClientMeta ext (self s)).
  split; [reflexivity|]. unfold newClientMeta. simpl. fold override.
  split; [intros ->; reflexivity|]. split; [|auto].
  intros network ->. eexists. split; [reflexivity|]. simpl.
  destruct (decide (override = ""%string)); repeat split; congruence.
Qed.

(** X10. A network name override reaches the client meta but not the
    iterators: after the readiness callback the client meta it built is
    named by the override, while each of the six iterators is still
    constructed with the name of the beacon's own network. *)
Theorem override_names_the_meta_not_the_iterators
    (ext : Externals) (starts : xatu.CannonType → option Go.error) (s : State)
    (network : networks.Network) :
  ethereum.Network (ethereum.Metadata (beacon (self s))) = Some network →
  ethereum.OverrideNetworkName (Ethereum (Config_ (self s))) ≠ ""%string →
  let s' := (onReady ext starts s).2 in
  (∃ meta,
     clientMetas s' !! length (clientMetas s) = Some meta
     ∧ xatu.Network_Name <$> xatu.Network (xatu.Ethereum meta)
       = Some (ethereum.OverrideNetworkName (Ethereum (Config_ (self s)))))
  ∧ Forall (λ d,
       deriver.clientMeta d = length (clientMetas s)
       ∧ iterator.networkName (deriver.iter d) = networks.Name network)
      (drop (length (derivers s)) (derivers s')).
Proof.
  intros Hnet Hover s'.
  destruct (onReady_constructs ext starts s network Hnet) as (Hm & Hb & _).
  fold s' in Hm, Hb. split.
  - exists (newClientMeta ext (self s)). split.
    + rewrite Hm. apply list_lookup_middle. reflexivity.
    + unfold newClientMeta. simpl. rewrite Hnet. simpl.
      destruct (decide _) as [Heq|]; [contradiction | reflexivity].
  - assert (map blueprint (drop (length (derivers s)) (derivers s'))
            = map (blueprintOf (self s) network (length (clientMetas s))) cannonTypes) as Hnew.
    { change (map blueprint ?l) with (blueprint <$> l).
      rewrite fmap_drop. change (blueprint <$> ?l) with (map blueprint l). rewrite Hb.
      rewrite <- (length_map blueprint (derivers s)). apply drop_app_length. }
    destruct (six_blueprints _ _ _ _ Hnew) as (_ & _ & Hiters & Hmeta).
    apply Forall_and. split; [exact Hmeta|].
    apply (Forall_fmap deriver.iter
             (λ it, iterator.networkName it = networks.Name network)).
    change (deriver.iter <$> ?l) with (map deriver.iter l). rewrite Hiters.
    repeat constructor.
Qed.

Lemma override_names_the_meta_not_the_iterators_witness :
  let s := boot overridden in
  let s' := (onReady exampleExternals allStart s).2 in
  (∃ meta,
     clientMetas s' !! length (clientMetas s) = Some meta
     ∧ xatu.Network_Name <$> xatu.Network (xatu.Ethereum meta)
       = Some (ethereum.OverrideNetworkName (Ethereum (Config_ overridden))))
  ∧ Forall (λ d,
       deriver.clientMeta d = length (clientMetas s)
       ∧ iterator.networkName (deriver.iter d) = networks.Name {| networks.Name := "mainnet"; networks.ID := 1 |})
      (drop (length (derivers s)) (derivers s')).
Proof.
  assert (ethereum.Network (ethereum.Metadata (beacon (self (boot overridden))))
          = Some {| networks.Name := "mainnet"; networks.ID := 1 |}) as Hnet
    by (vm_compute; reflexivity).
  assert (ethereum.OverrideNetworkName (Ethereum (Config_ (self (boot overridden))))
          ≠ ""%string) as Hover by discriminate.
  exact (override_names_the_meta_not_the_iterators exampleExternals allStart
           (boot overridden) {| networks.Name := "mainnet"; networks.ID := 1 |} Hnet Hover).
Defined.

(** ** [handleNewDecoratedEvents]: the metrics and the missing network *)

Lemma observing_nil s : observing [] s = s.
Proof.
  destruct s as [[cfg ss b drift lg i [ns obs] sch ed cc] ms dvs].
  unfold observing. simpl. rewrite app_nil_r. reflexivity.
Qed.

Lemma observing_observing more more' s :
  observing more' (observing more s) = observing (more ++ more') s.
Proof. unfold observing. simpl. rewrite app_assoc. reflexivity. Qed.

Lemma countEvents_observes events s network :
  ethereum.Network (ethereum.Metadata (beacon (self s))) = Some network →
  countEvents events s
  = (Returned tt,
     observing (map (λ event, AddDecoratedEvent 1 event (networks.Name network)) events) s).
Proof.
  revert s. induction events as [|event events IH]; intros s Hnet; simpl.
  - rewrite observing_nil. reflexivity.
  - unfold mbind, M_bind, this, update. simpl. rewrite Hnet.
    match goal with |- context [countEvents events ?s1] =>
      change s1 with (observing [AddDecoratedEvent 1 event (networks.Name network)] s)
    end.
    rewrite IH by exact Hnet. rewrite observing_observing. reflexivity.
Qed.

(** X11. With the beacon's network known, [handleNewDecoratedEvents]
    records one observation per event of the batch, in batch order, each
    with count 1 and the name of the beacon's network, whether or not the
    sinks accepted the batch; besides the sinks, the log and these
    observations it changes nothing. *)
Theorem handleNewDecoratedEvents_counts_every_event
    (events : list xatu.DecoratedEvent) (s : State) (network : networks.Network) :
  ethereum.Network (ethereum.Metadata (beacon (self s))) = Some network →
  let r := handleNewDecoratedEvents events s in
  observations (metrics (self r.2))
  = observations (metrics (self s))
    ++ map (λ event, AddDecoratedEvent 1 event (networks.Name network)) events
  ∧ namespace (metrics (self r.2)) = namespace (metrics (self s))
  ∧ Config_ (self r.2) = Config_ (self s)
  ∧ beacon (self r.2) = beacon (self s)
  ∧ clockDrift (self r.2) = clockDrift (self s)
  ∧ scheduler (self r.2) = scheduler (self s)
  ∧ eventDerivers (self r.2) = eventDerivers (self s)
  ∧ clientMetas r.2 = clientMetas s
  ∧ derivers r.2 = derivers s.
Proof.
  intros Hnet r. subst r. rewrite handleNewDecoratedEvents_unfold. simpl.
  rewrite (countEvents_observes events _ network) by exact Hnet. simpl.
  repeat split.
Qed.

Lemma handleNewDecoratedEvents_counts_every_event_witness :
  let s := boot (set_sinks [brokenSink "http"] exampleCannon) in
  let batch := exampleBatch xatu.BEACON_API_ETH_V2_BEACON_BLOCK_VOLUNTARY_EXIT ["e1"; "e2"]%string in
  observations (metrics (self (handleNewDecoratedEvents batch s).2))
  = map (λ event, AddDecoratedEvent 1 event "mainnet") batch
  ∧ length (log (self (handleNewDecoratedEvents batch s).2)) = 1%nat.
Proof.
  intros s batch.
  destruct (handleNewDecoratedEvents_counts_every_event batch s
              {| networks.Name := "mainnet"; networks.ID := 1 |} eq_refl) as (Hobs & _).
  split; [rewrite Hobs; reflexivity | vm_compute; reflexivity].
Defined.

(** X12. With no network on the beacon, [handleNewDecoratedEvents] panics
    on a batch that is not empty, at the first observation: by then every
    sink has been handed the batch and the sinks' errors are logged, and
    no observation has been recorded. *)
Theorem handleNewDecoratedEvents_panics_without_network
    (events : list xatu.DecoratedEvent) (s : State) :
  ethereum.Network (ethereum.Metadata (beacon (self s))) = None →
  events ≠ [] →
  let r := handleNewDecoratedEvents events s in
  r.1 = Panicked
  ∧ sinks (self r.2) = map (handed events) (sinks (self s))
  ∧ log (self r.2) = log (self s) ++ flat_map (complaint events) (sinks (self s))
  ∧ metrics (self r.2) = metrics (self s).
Proof.
  intros Hnet Hne r. subst r. rewrite handleNewDecoratedEvents_unfold. simpl.
  destruct events as [|event events]; [congruence|]. simpl.
  unfold mbind, M_bind, this, panic. simpl. rewrite Hnet. repeat split.
Qed.

Lemma handleNewDecoratedEvents_panics_without_network_witness :
  let s := boot (set_beacon nowhere exampleCannon) in
  let batch := exampleBatch xatu.BEACON_API_ETH_V2_BEACON_BLOCK_DEPOSIT ["d1"]%string in
  (handleNewDecoratedEvents batch s).1 = Panicked
  ∧ map output.received (sinks (self (handleNewDecoratedEvents batch s).2))
    = [[output.CallHandleNewDecoratedEvents batch]; [output.CallHandleNewDecoratedEvents batch]].
Proof.
  intros s batch.
  destruct (handleNewDecoratedEvents_panics_without_network batch s eq_refl)
    as (Hr & Hss & _); [discriminate|].
  split; [exact Hr | rewrite Hss; reflexivity].
Defined.

(** ** The readiness callback: missing network, failing derivers *)

(** X13. With no network on the beacon, the readiness callback panics
    after its first log line and before it constructs anything: no client
    meta, no deriver, and [eventDerivers] is as it was. *)
Theorem onReady_panics_without_network
    (ext : Externals) (starts : xatu.CannonType → option Go.error) (s : State) :
  ethereum.Network (ethereum.Metadata (beacon (self s))) = None →
  let r := onReady ext starts s in
  r.1 = Panicked
  ∧ clientMetas r.2 = clientMetas s
  ∧ derivers r.2 = derivers s
  ∧ eventDerivers (self r.2) = eventDerivers (self s)
  ∧ length (log (self r.2)) = S (length (log (self s))).
Proof.
  intros Hnet r. subst r.
  unfold onReady, logged, mbind, M_bind, update, this, panic. simpl. rewrite Hnet. simpl.
  repeat split. rewrite length_app. simpl. lia.
Qed.

Lemma onReady_panics_without_network_witness :
  let s := boot (set_beacon nowhere exampleCannon) in
  (onReady exampleExternals allStart s).1 = Panicked
  ∧ clientMetas (onReady exampleExternals allStart s).2 = []
  ∧ derivers (onReady exampleExternals allStart s).2 = [].
Proof.
  intros s.
  destruct (onReady_panics_without_network exampleExternals allStart s eq_refl)
    as (Hr & Hm & Hd & _).
  split; [exact Hr|]. split; [exact Hm | exact Hd].
Defined.

Lemma onDeriver_middle f old d rest s :
  derivers s = old ++ d :: rest →
  onDeriver (length old) f s
  = (Returned tt,
     {| self := self s; clientMetas := clientMetas s; derivers := old ++ f d :: rest;
     goroutines := goroutines s |}).
Proof.
  intros Hd. unfold onDeriver, mbind, M_bind, deref, store.
  rewrite Hd, list_lookup_middle by reflexivity. simpl.
  rewrite Hd, insert_app_r_alt, Nat.sub_diag by lia. reflexivity.
Qed.

Lemma startDeriver_middle starts old d rest s :
  derivers s = old ++ d :: rest →
  startDeriver starts (length old) s
  = (Returned (starts (deriver.CannonType d)),
     {| self := self s; clientMetas := clientMetas s;
        derivers := old ++ deriver.Start (starts (deriver.CannonType d)) d :: rest;
        goroutines := goroutines s |}).
Proof.
  intros Hd. unfold startDeriver, mbind, M_bind, deref, store.
  rewrite Hd, list_lookup_middle by reflexivity. simpl.
  rewrite Hd, insert_app_r_alt, Nat.sub_diag by lia. reflexivity.
Qed.

(** The loop over freshly constructed derivers: every deriver up to and
    including the first whose [Start] fails has been attempted, the ones
    behind it are as constructed, and the loop returns that first error. *)
Lemma startEach_fresh starts (new old : list deriver.EventDeriver) (s : State) :
  derivers s = old ++ new →
  let r := startEach starts (seq (length old) (length new)) s in
  r.1 = Returned (head (omap (λ d, starts (deriver.CannonType d)) new))
  ∧ derivers r.2 = old ++ progress starts new.
Proof.
  revert old s. induction new as [|d rest IH]; intros old s Hd r; subst r.
  - simpl. rewrite Hd. auto.
  - simpl seq. simpl startEach. unfold orReturn, mbind, M_bind.
    rewrite (onDeriver_middle _ _ _ _ _ Hd). cbv beta iota.
    rewrite (onDeriver_middle _ old (deriver.OnEventsDerived OnEventsDerivedFn d) rest)
      by reflexivity. cbv beta iota.
    unfold deref at 1 2. cbn [derivers].
    rewrite list_lookup_middle by reflexivity. cbv beta iota.
    unfold logged, update. cbv beta iota.
    rewrite (startDeriver_middle starts old
               (deriver.OnLocationUpdated OnLocationUpdatedFn
                  (deriver.OnEventsDerived OnEventsDerivedFn d)) rest) by reflexivity.
    cbn [deriver.CannonType deriver.OnLocationUpdated deriver.OnEventsDerived
         self clientMetas derivers].
    fold (attempted starts d). cbn [omap list_omap progress].
    destruct (starts (deriver.CannonType d)) as [err|] eqn:Hs.
    + simpl. auto.
    + match goal with |- context [startEach starts _ ?s1] =>
        destruct (IH (old ++ [attempted starts d]) s1) as (Hr & Hds)
      end.
      { simpl. rewrite <- app_assoc. reflexivity. }
      rewrite length_app, Nat.add_1_r in Hr, Hds.
      cbv beta iota. rewrite Hr, Hds, <- app_assoc. auto.
Qed.

(** The callback up to its loop, with the six derivers as constructed. *)
Lemma onReady_loop ext starts s network :
  ethereum.Network (ethereum.Metadata (beacon (self s))) = Some network →
  ∃ entry,
    onReady ext starts s
    = startEach starts (seq (length (derivers s)) 6)
        {| self := set_eventDerivers (seq (length (derivers s)) 6)
                     (set_log (log (self s) ++ [entry]) (self s));
           clientMetas := clientMetas s ++ [newClientMeta ext (self s)];
           derivers :=
             derivers s
             ++ map (λ t, v2.new t (configOf (Derivers (Config_ (self s))) t)
                            (iteratorOf (self s) network t) (length (clientMetas s)))
                  cannonTypes;
           goroutines := goroutines s |}.
Proof.
  intros Hnet. eexists.
  unfold onReady, createNewClientMeta, logged, allocClientMeta, allocDerivers,
    mbind, M_bind, update, this. simpl. rewrite Hnet. reflexivity.
Qed.

Lemma allStarted_cons starts t ts :
  allStarted starts (t :: ts)
  = match starts t with None => allStarted starts ts | Some _ => false end.
Proof.
  unfold allStarted. simpl. destruct (starts t).
  - rewrite bool_decide_eq_false_2 by discriminate. reflexivity.
  - rewrite bool_decide_eq_true_2 by reflexivity. reflexivity.
Qed.

(** X14. The readiness callback's loop returns at the first deriver whose
    [Start] fails, with that error.  In the order of the six cannon types:
    a deriver has the two callbacks registered exactly when every deriver
    before it has started, and it is started exactly when it and every
    deriver before it start; the derivers behind a failure are left as
    constructed, without callbacks and not started, although
    [eventDerivers] already lists all six. *)
Theorem onReady_stops_at_first_failed_Start
    (ext : Externals) (starts : xatu.CannonType → option Go.error) (s : State)
    (network : networks.Network) :
  ethereum.Network (ethereum.Metadata (beacon (self s))) = Some network →
  let r := onReady ext starts s in
  r.1 = Returned (head (omap starts cannonTypes))
  ∧ eventDerivers (self r.2) = seq (length (derivers s)) 6
  ∧ ∀ i t, cannonTypes !! i = Some t →
      ∃ dv,
        derivers r.2 !! (length (derivers s) + i)%nat = Some dv
        ∧ deriver.CannonType dv = t
        ∧ deriver.onEventsDerived dv
          = (if allStarted starts (take i cannonTypes) then [OnEventsDerivedFn] else [])
        ∧ deriver.onLocationUpdated dv
          = (if allStarted starts (take i cannonTypes) then [OnLocationUpdatedFn] else [])
        ∧ deriver.started dv = allStarted starts (take (S i) cannonTypes).
Proof.
  intros Hnet r. subst r.
  destruct (onReady_constructs ext starts s network Hnet) as (_ & _ & He).
  destruct (onReady_loop ext starts s network Hnet) as (entry & Hloop).
  rewrite Hloop in *. clear Hloop.
  match goal with |- context [startEach starts _ ?s1] =>
    destruct (startEach_fresh starts
                (map (λ t, v2.new t (configOf (Derivers (Config_ (self s))) t)
                             (iteratorOf (self s) network t) (length (clientMetas s)))
                   cannonTypes)
                (derivers s) s1 eq_refl) as (Hr & Hds)
  end.
  change (length (map _ cannonTypes)) with 6%nat in Hr, Hds.
  split; [rewrite Hr; reflexivity|]. split; [exact He|].
  intros i t Hi. rewrite Hds, lookup_app_r, Nat.add_comm, Nat.add_sub by lia.
  unfold cannonTypes in *.
  do 6 (destruct i as [|i];
        [ injection Hi as <-; cbn [take]; rewrite ?allStarted_cons;
          change (allStarted starts []) with true; simpl;
          repeat match goal with
                 | |- context [(match starts ?t with _ => _ end) !! _] =>
                   destruct (starts t); simpl
                 end;
          unfold attempted; simpl;
          repeat match goal with
                 | |- context [match starts ?t with _ => _ end] =>
                   destruct (starts t); simpl
                 end;
          eexists; (split; [reflexivity|]); simpl; repeat split
        | simpl in Hi ]).
  discriminate Hi.
Qed.

Lemma onReady_stops_at_first_failed_Start_witness :
  let starts := λ t, match t with
                     | xatu.BEACON_API_ETH_V2_BEACON_BLOCK_VOLUNTARY_EXIT => Some "no spec"%string
                     | _ => None
                     end in
  let r := onReady exampleExternals starts (boot exampleCannon) in
  r.1 = Returned (Some "no spec"%string)
  ∧ map deriver.started (derivers r.2) = [true; true; false; false; false; false]
  ∧ map deriver.onEventsDerived (derivers r.2)
    = [[OnEventsDerivedFn]; [OnEventsDerivedFn]; [OnEventsDerivedFn]; []; []; []]
  ∧ eventDerivers (self r.2) = [0; 1; 2; 3; 4; 5]%nat.
Proof.
  intros starts r.
  assert (ethereum.Network (ethereum.Metadata (beacon (self (boot exampleCannon))))
          = Some {| networks.Name := "mainnet"; networks.ID := 1 |}) as Hnet
    by (vm_compute; reflexivity).
  destruct (onReady_stops_at_first_failed_Start exampleExternals starts
              (boot exampleCannon) _ Hnet) as (Hr & He & _).
  split; [exact Hr|]. split; [vm_compute; reflexivity|].
  split; [vm_compute; reflexivity | exact He].
Defined.

(** ** The cron job *)

(** X15. The cron job never fails and never stops the process: whatever
    the NTP server answers over any number of runs, each run leaves one
    log entry (the new drift, or the error that [syncClockDrift]
    returned), and [clockDrift] ends as the offset of the last probe that
    succeeded, or as it was when none did.  Nothing else changes. *)
Theorem cron_runs_keep_the_last_valid_offset
    (queries : list (string → Go.error + ntp.Response)) (s : State) :
  let server := NTPServer (Config_ (self s)) in
  forEach cronJob queries s
  = (Returned tt,
     withDriftAndLog
       (foldl (probed server) (clockDrift (self s)) queries)
       (log (self s) ++ map (report server) queries) s).
Proof.
  intros server. subst server. revert s.
  induction queries as [|query queries IH]; intros s.
  - simpl. rewrite app_nil_r, withDriftAndLog_same. reflexivity.
  - simpl forEach. unfold mbind, M_bind. rewrite cronJob_probe, IH.
    simpl. rewrite <- app_assoc. reflexivity.
Qed.

(** ** The location callback *)

(** X16. After the readiness callback, the closure registered with
    [OnLocationUpdated] on the i-th deriver records the reported location
    under that deriver's own cannon type and the name of the beacon's
    network, returns nil, and changes nothing but the metrics; this holds
    for every deriver, started or not. *)
Theorem location_callback_reports_own_type
    (ext : Externals) (starts : xatu.CannonType → option Go.error) (s : State)
    (network : networks.Network) (i : nat) (t : xatu.CannonType) (location : Z) :
  ethereum.Network (ethereum.Metadata (beacon (self s))) = Some network →
  cannonTypes !! i = Some t →
  let s1 := (onReady ext starts s).2 in
  locationUpdated (length (derivers s) + i) location s1
  = (Returned None,
     observing [SetDeriverLocation location t (networks.Name network)] s1).
Proof.
  intros Hnet Hi s1.
  destruct (onReady_constructs ext starts s network Hnet) as (_ & Hb & _).
  fold s1 in Hb.
  assert (∃ dv, derivers s1 !! (length (derivers s) + i)%nat = Some dv
                ∧ deriver.CannonType dv = t) as (dv & Hdv & Ht).
  { assert ((blueprint <$> derivers s1) !! (length (derivers s) + i)%nat
            = Some (blueprintOf (self s) network (length (clientMetas s)) t)) as Hl.
    { change (blueprint <$> derivers s1) with (map blueprint (derivers s1)).
      rewrite Hb, lookup_app_r by (rewrite length_map; lia).
      rewrite length_map, Nat.add_comm, Nat.add_sub.
      change (map ?f cannonTypes) with (f <$> cannonTypes).
      rewrite list_lookup_fmap, Hi. reflexivity. }
    rewrite list_lookup_fmap in Hl.
    destruct (derivers s1 !! (length (derivers s) + i)%nat) as [dv|]; [|discriminate].
    exists dv. split; [reflexivity|]. injection Hl as Hl.
    unfold blueprint, blueprintOf in Hl. congruence. }
  assert (beacon (self s1) = beacon (self s)) as Hbeacon
    by apply (onReady_sameBeacon ext starts s).
  unfold locationUpdated, mbind, M_bind, deref, this, update.
  rewrite Hdv. simpl. rewrite Hbeacon, Hnet, Ht. reflexivity.
Qed.

Lemma location_callback_reports_own_type_witness :
  let s1 := (onReady exampleExternals allStart (boot exampleCannon)).2 in
  (locationUpdated 3 4096 s1).1 = Returned None
  ∧ observations (metrics (self (locationUpdated 3 4096 s1).2))
    = [SetDeriverLocation 4096 xatu.BEACON_API_ETH_V2_BEACON_BLOCK_DEPOSIT "mainnet"].
Proof.
  intros s1.
  assert (ethereum.Network (ethereum.Metadata (beacon (self (boot exampleCannon))))
          = Some {| networks.Name := "mainnet"; networks.ID := 1 |}) as Hnet
    by (vm_compute; reflexivity).
  assert (cannonTypes !! 3%nat = Some xatu.BEACON_API_ETH_V2_BEACON_BLOCK_DEPOSIT) as Ht
    by reflexivity.
  pose proof (location_callback_reports_own_type exampleExternals allStart
                (boot exampleCannon) _ 3 _ 4096 Hnet Ht) as H.
  change (length (derivers (boot exampleCannon)) + 3)%nat with 3%nat in H.
  fold s1 in H. rewrite H. split; [reflexivity | vm_compute; reflexivity].
Defined.
